(** * Telco churn ELT: cleaning, feature engineering and insight aggregation

    A shallow embedding of [src/transform/transform_data.py] ([clean_data])
    and [src/transform/create_insights.py] ([add_engineered_features],
    [create_churn_insights]) together with the pandas operations they call.

    Modelling conventions.
    - A Python float is an IEEE-754 binary64 number, represented by the
      Standard Library's [spec_float] at precision 53 and maximal exponent
      1024; arithmetic is [SFmul]/[SFdiv], correctly rounded.
    - A Python [str] is a [string] holding its UTF-8 encoding: equality,
      the order of code points, and the search for the ASCII character ["$"]
      are the same on the encoding as on the text.
    - An int64 cell is a [Z] between [-2^63] and [2^63 - 1]; the casts that
      can leave this range ([astype(int)] on a float64 or uint64 Series) are
      written out.
    - A pandas [Series] is a typed [column] (its dtype is the constructor), a
      [DataFrame] is an index of row labels plus a finite map from column
      names to columns.
    - A raised exception is [None].
    - What the Python runtime or pandas compute from their own tables
      ([str.strip], [str.lower] and [str.capitalize], which follow the
      Unicode database; [float(s)]; [pd.to_numeric] on a string; [str(x)] of
      a float; [round]; the summation order of [mean]) is a field of
      [Builtins]; the theorems hold for every choice of them, and
      [py_builtins] gives an executable instance for the examples. *)

From Stdlib Require Import ZArith String Ascii.
From Stdlib Require Import Floats.SpecFloat.
From stdpp Require Import gmap strings pretty list fin_maps sorting.

(** ** Python floats *)

Module PyFloat.

Definition float : Type := spec_float.

Definition prec : Z := 53.
Definition emax : Z := 1024.

Definition nan : float := S754_nan.

Definition is_nan (f : float) : bool :=
  match f with S754_nan => true | _ => false end.

Definition is_finite (f : float) : bool :=
  match f with S754_zero _ | S754_finite _ _ _ => true | _ => false end.

(** [float(z)] for an integer: the nearest double, ties to even. *)
Definition of_Z (z : Z) : float := binary_normalize prec emax z 0 false.

Definition mul : float -> float -> float := SFmul prec emax.
Definition add : float -> float -> float := SFadd prec emax.
Definition div : float -> float -> float := SFdiv prec emax.
Definition ltb : float -> float -> bool := SFltb.
Definition leb : float -> float -> bool := SFleb.
Definition eqb : float -> float -> bool := SFeqb.

(** The integer part of a finite float, rounded toward zero, as an exact
    integer; [None] for NaN and the infinities. *)
Definition trunc (f : float) : option Z :=
  match f with
  | S754_zero _ => Some 0%Z
  | S754_finite s m e => Some (cond_Zopp s (Z.shiftl (Zpos m) e))
  | S754_infinity _ | S754_nan => None
  end.

Definition int64_min : Z := (- 2 ^ 63)%Z.
Definition int64_max : Z := (2 ^ 63 - 1)%Z.
Definition uint64_max : Z := (2 ^ 64 - 1)%Z.

Definition in_int64 (z : Z) : bool := ((int64_min <=? z) && (z <=? int64_max))%Z.

(** The float64 to int64 cast of numpy on a finite float: the truncation
    when it fits, and the x86-64 conversion result [-2^63] when it does
    not. *)
Definition to_int64 (f : float) : option Z :=
  t ← trunc f; Some (if in_int64 t then t else int64_min).

(** The same cast stated in integer arithmetic: [z] is the value
    [m * 2^e] of the float cut toward zero, or [-2^63] when that is not an
    int64. No integer is the cast of a NaN or of an infinity. *)
Definition casts_to (f : float) (z : Z) : Prop :=
  match f with
  | S754_zero _ => z = 0%Z
  | S754_finite s m e =>
      let a := (if 0 <=? e then Zpos m * 2 ^ e else Zpos m / 2 ^ (- e))%Z in
      let q := (if s then - a else a)%Z in
      z = (if (- 2 ^ 63 <=? q) && (q <=? 2 ^ 63 - 1) then q else - 2 ^ 63)%Z
  | S754_infinity _ | S754_nan => False
  end.

(** The uint64 to int64 cast: the same 64 bits read as a signed number. *)
Definition uint64_to_int64 (z : Z) : Z :=
  if (z <=? int64_max)%Z then z else (z - 2 ^ 64)%Z.

(** Round half to even to an integer-valued float ([numpy.rint]). *)
Definition rint (f : float) : float :=
  match f with
  | S754_finite s m e =>
      if (0 <=? e)%Z then f
      else
        let d := Z.shiftl 1 (- e) in
        let q := (Zpos m / d)%Z in
        let r := (Zpos m mod d)%Z in
        let q' :=
          match (2 * r ?= d)%Z with
          | Lt => q
          | Gt => (q + 1)%Z
          | Eq => if Z.even q then q else (q + 1)%Z
          end in
        binary_normalize prec emax (cond_Zopp s q') 0 s
  | _ => f
  end.

#[global] Instance float_eq_dec : EqDecision float.
Proof. solve_decision. Defined.

End PyFloat.

Export PyFloat(float).

(** ** Strings as encoded text *)

Module PyStr.

Definition code (c : ascii) : N := N_of_ascii c.

Fixpoint map_str (f : ascii -> ascii) (s : string) : string :=
  match s with
  | EmptyString => EmptyString
  | String c r => String (f c) (map_str f r)
  end.

Fixpoint lstrip_where (p : ascii -> bool) (s : string) : string :=
  match s with
  | EmptyString => EmptyString
  | String c r => if p c then lstrip_where p r else s
  end.

Fixpoint rstrip_where (p : ascii -> bool) (s : string) : string :=
  match s with
  | EmptyString => EmptyString
  | String c r =>
      match rstrip_where p r with
      | EmptyString => if p c then EmptyString else String c EmptyString
      | r' => String c r'
      end
  end.

(** [s.lstrip("$")] *)
Definition lstrip_dollar : string -> string := lstrip_where (Ascii.eqb "$").

(** ["$" in s] *)
Fixpoint contains_char (d : ascii) (s : string) : bool :=
  match s with
  | EmptyString => false
  | String c r => Ascii.eqb c d || contains_char d r
  end.

(** [s.split("$")[0]] *)
Fixpoint before_char (d : ascii) (s : string) : string :=
  match s with
  | EmptyString => EmptyString
  | String c r => if Ascii.eqb c d then EmptyString else String c (before_char d r)
  end.

(** [s in [a, b, c]] *)
Definition str_in (s : string) (l : list string) : bool :=
  existsb (String.eqb s) l.

End PyStr.

(** ** Cell values, columns and frames *)

(** A Python object held in an object-dtype column: [None], a [str], an
    [int], a [float] (NaN included) or a [bool]. *)
Inductive value :=
  | VNone
  | VStr (s : string)
  | VInt (z : Z)
  | VFloat (f : float)
  | VBool (b : bool).

(** A parsed number: what [pd.to_numeric] makes of one cell. *)
Inductive num :=
  | NInt (z : Z)
  | NFloat (f : float).

#[global] Instance value_eq_dec : EqDecision value.
Proof. solve_decision. Defined.

#[global] Instance num_eq_dec : EqDecision num.
Proof. solve_decision. Defined.

(** [pd.isna(v)] *)
Definition isna (v : value) : bool :=
  match v with
  | VNone => true
  | VFloat f => PyFloat.is_nan f
  | _ => false
  end.

Definition notna (v : value) : bool := negb (isna v).

(** What [pd.to_numeric] reads in one cell: the float it stores and, when
    the cell is an integer, the integer as well. *)
Record parsed := Parsed {
  p_float : float;
  p_int : option Z;
}.

(** What the runtime computes on floats and strings. [str_strip s],
    [str_lower s] and [str_capitalize s] are [s.strip()], [s.lower()] and
    [s.capitalize()]; [py_float s] is [float(s)] ([None] when it raises
    [ValueError]); [to_numeric_str s] is [pd.to_numeric] on one string cell
    ([None] when it cannot be parsed); [str_float f] is [str(f)] for a float
    that is not NaN; [py_round x n] is [round(x, n)]; [float_sum l] is the
    sum [Series.mean] divides. *)
Class Builtins := {
  str_strip : string -> string;
  str_lower : string -> string;
  str_capitalize : string -> string;
  py_float : string -> option float;
  to_numeric_str : string -> option parsed;
  str_float : float -> string;
  py_round : float -> Z -> float;
  float_sum : list float -> float;
}.

(** A pandas Series: the constructor is the dtype. *)
Inductive column :=
  | ColInt (xs : list Z)
  | ColFloat (xs : list float)
  | ColBool (xs : list bool)
  | ColObj (xs : list value).

#[global] Instance column_eq_dec : EqDecision column.
Proof. solve_decision. Defined.

(** The cells of a column as Python objects. *)
Definition col_values (c : column) : list value :=
  match c with
  | ColInt xs => VInt <$> xs
  | ColFloat xs => VFloat <$> xs
  | ColBool xs => VBool <$> xs
  | ColObj xs => xs
  end.

Definition col_len (c : column) : nat :=
  match c with
  | ColInt xs => length xs
  | ColFloat xs => length xs
  | ColBool xs => length xs
  | ColObj xs => length xs
  end.

(** [series.dtype == object] *)
Definition is_object (c : column) : bool :=
  match c with ColObj _ => true | _ => false end.

(** Rows selected by a boolean mask ([df[mask]]). *)
Fixpoint mask_filter {A} (keep : list bool) (l : list A) : list A :=
  match keep, l with
  | true :: ks, x :: xs => x :: mask_filter ks xs
  | false :: ks, _ :: xs => mask_filter ks xs
  | _, _ => []
  end.

(** How many rows a mask keeps. *)
Fixpoint count_true (keep : list bool) : nat :=
  match keep with
  | [] => 0
  | b :: ks => (if b then 1 else 0) + count_true ks
  end.

Definition col_filter (keep : list bool) (c : column) : column :=
  match c with
  | ColInt xs => ColInt (mask_filter keep xs)
  | ColFloat xs => ColFloat (mask_filter keep xs)
  | ColBool xs => ColBool (mask_filter keep xs)
  | ColObj xs => ColObj (mask_filter keep xs)
  end.

(** A DataFrame: row labels and named columns. *)
Record frame := Frame {
  index : list nat;
  cols : gmap string column;
}.

Definition nrows (df : frame) : nat := length (index df).

(** Every column has one cell per row label. *)
Definition wf_frame (df : frame) : Prop :=
  map_Forall (fun _ col => col_len col = nrows df) (cols df).

(** [df[c]]; [None] is [KeyError]. *)
Definition get_col (c : string) (df : frame) : option column := cols df !! c.

(** [df[c] = col] *)
Definition set_col (c : string) (col : column) (df : frame) : frame :=
  Frame (index df) (<[c := col]> (cols df)).

(** [df[keep]] on every column and on the index. *)
Definition frame_filter (keep : list bool) (df : frame) : frame :=
  Frame (mask_filter keep (index df)) (col_filter keep <$> cols df).

(** A frame from a list of named columns, labelled [0 .. n-1]. *)
Definition mk_frame (n : nat) (l : list (string * column)) : frame :=
  Frame (seq 0 n) (list_to_map l).


(** ** Hash keys: how pandas compares cells in [duplicated] and [groupby]

    Two cells are the same key when Python's [==] holds between them (an int,
    a bool and a float are compared by exact numeric value), and two NaNs are
    the same key. A number is kept as the dyadic [m * 2^e] with [m] odd. *)

Inductive key :=
  | KNone
  | KNaN
  | KStr (s : string)
  | KInf (neg : bool)
  | KNum (m e : Z).

#[global] Instance key_eq_dec : EqDecision key.
Proof. solve_decision. Defined.

Fixpoint strip_twos (p : positive) (e : Z) : positive * Z :=
  match p with
  | xO q => strip_twos q (e + 1)
  | _ => (p, e)
  end.

Definition key_of_dyadic (neg : bool) (m : positive) (e : Z) : key :=
  let '(m', e') := strip_twos m e in KNum (cond_Zopp neg (Zpos m')) e'.

Definition key_of_Z (z : Z) : key :=
  match z with
  | Z0 => KNum 0 0
  | Zpos p => key_of_dyadic false p 0
  | Zneg p => key_of_dyadic true p 0
  end.

Definition key_of_float (f : float) : key :=
  match f with
  | S754_zero _ => KNum 0 0
  | S754_infinity s => KInf s
  | S754_nan => KNaN
  | S754_finite s m e => key_of_dyadic s m e
  end.

Definition key_of (v : value) : key :=
  match v with
  | VNone => KNone
  | VStr s => KStr s
  | VInt z => key_of_Z z
  | VFloat f => key_of_float f
  | VBool b => key_of_Z (Z.b2z b)
  end.

(** [series.duplicated(keep="first")]: a cell is a duplicate when its key is
    already in the table of keys seen so far. *)
Fixpoint duplicated_from (seen : list key) (ks : list key) : list bool :=
  match ks with
  | [] => []
  | k :: r =>
      if bool_decide (k ∈ seen) then true :: duplicated_from seen r
      else false :: duplicated_from (k :: seen) r
  end.

Definition duplicated (c : column) : list bool :=
  duplicated_from [] (key_of <$> col_values c).

(** ** The cleaning engine ([transform_data.py]) *)

Section Cleaning.
Context `{B : Builtins}.

(** [str(x)] *)
Definition py_str (v : value) : string :=
  match v with
  | VNone => "None"
  | VStr s => s
  | VInt z => pretty z
  | VFloat f => if PyFloat.is_nan f then "nan" else str_float f
  | VBool true => "True"
  | VBool false => "False"
  end.

(** The string branch of [_parse_total_charges], lines 35-48: strip, try
    [float], then drop leading dollars, keep what precedes the next dollar
    and try [float] again. *)
Definition parse_amount (s0 : string) : float :=
  let s := str_strip s0 in
  match py_float s with
  | Some f => f
  | None =>
      let s := PyStr.lstrip_dollar s in
      let s := if PyStr.contains_char "$" s then PyStr.before_char "$" s else s in
      match py_float s with
      | Some f => f
      | None => PyFloat.nan
      end
  end.

(** [_parse_total_charges(val)], lines 31-48. A null, [""] or [" "] is NaN.
    For the cells that are not strings the calls [float(str(val).strip())]
    are evaluated by the language rules: [str] of a float is its repr, which
    [float] reads back as the same float; [str] of an int is its decimal
    numeral, which [float] rounds to the nearest double; [str] of a bool is
    ["True"] or ["False"], which neither [float] call accepts. *)
Definition _parse_total_charges (val : value) : float :=
  match val with
  | VNone => PyFloat.nan
  | VFloat f => f
  | VInt z => PyFloat.of_Z z
  | VBool _ => PyFloat.nan
  | VStr s =>
      if bool_decide (s = "") || bool_decide (s = " ") then PyFloat.nan
      else parse_amount s
  end.

(** [series.apply(f)] with float results: an empty Series is returned as it
    is, otherwise the results form a float64 Series. *)
Definition series_apply_float (f : value -> float) (c : column) : column :=
  match col_values c with
  | [] => c
  | vs => ColFloat (f <$> vs)
  end.

(** [series.apply(f)] with string results. *)
Definition series_apply_str (f : value -> string) (c : column) : column :=
  match col_values c with
  | [] => c
  | vs => ColObj ((fun v => VStr (f v)) <$> vs)
  end.

(** One cell of [pd.to_numeric(..., errors="coerce")] on an object column:
    a null or an unparseable string is NaN, an int or a bool is an integer
    stored with its float. *)
Definition cell_to_numeric (v : value) : parsed :=
  match v with
  | VNone => Parsed PyFloat.nan None
  | VStr s => default (Parsed PyFloat.nan None) (to_numeric_str s)
  | VInt z => Parsed (PyFloat.of_Z z) (Some z)
  | VFloat f => Parsed f None
  | VBool b => Parsed (PyFloat.of_Z (Z.b2z b)) (Some (Z.b2z b))
  end.

(** [fillna(0)] on one float. *)
Definition fillna0 (f : float) : float :=
  if PyFloat.is_nan f then S754_zero false else f.

(** [astype(int)] on a float64 Series: raises on a non-finite value, casts
    otherwise. *)
Definition floats_astype_int (fs : list float) : option (list Z) :=
  mapM PyFloat.to_int64 fs.

(** Whether [pd.to_numeric] must fall back to float64 on integers [zs]: one
    of them fits neither int64 nor uint64, or a negative one meets one above
    [2^63 - 1]. *)
Definition ints_need_float (zs : list Z) : bool :=
  existsb (fun z => (z <? PyFloat.int64_min) || (PyFloat.uint64_max <? z))%Z zs
  || (existsb (fun z => z <? 0)%Z zs && existsb (fun z => PyFloat.int64_max <? z)%Z zs).

(** [pd.to_numeric(col, errors="coerce").fillna(0).astype(int)], line 56.
    An int64 column is kept and a bool column becomes 0/1. A float64 column
    has its NaN filled and is cast. An object column whose cells are all
    integers becomes int64, or uint64 when one of them exceeds [2^63 - 1],
    and the cast to int64 wraps it; with a float, a null or an unparseable
    cell, or with integers that fit neither, the column goes through
    float64. *)
Definition tenure_to_int (c : column) : option (list Z) :=
  match c with
  | ColInt xs => Some xs
  | ColBool bs => Some (Z.b2z <$> bs)
  | ColFloat fs => floats_astype_int (fillna0 <$> fs)
  | ColObj vs =>
      let ps := cell_to_numeric <$> vs in
      match mapM p_int ps with
      | Some zs =>
          if ints_need_float zs
          then floats_astype_int ((fun p => fillna0 (p_float p)) <$> ps)
          else Some (PyFloat.uint64_to_int64 <$> zs)
      | None => floats_astype_int ((fun p => fillna0 (p_float p)) <$> ps)
      end
  end.

(** One row of lines 59-62: a NaN total becomes [MonthlyCharges * tenure]. *)
Definition impute_cell (t : float) (mn : float * Z) : float :=
  if PyFloat.is_nan t then PyFloat.mul mn.1 (PyFloat.of_Z mn.2) else t.

(** Lines 59-62 on the three columns. After lines 50-56 the total and the
    monthly charges are float64 and the tenure is int64, unless the frame is
    empty, where the assignment selects no row. *)
Definition impute (total monthly tenure : column) : column :=
  match total, monthly, tenure with
  | ColFloat ts, ColFloat ms, ColInt ns => ColFloat (zip_with impute_cell ts (zip ms ns))
  | _, _, _ => total
  end.

(** [d.get(v)] for a dict with string keys: no string equals a cell that is
    not a string. *)
Fixpoint dict_lookup {V} (d : list (string * V)) (s : string) : option V :=
  match d with
  | [] => None
  | (k, v) :: r => if String.eqb k s then Some v else dict_lookup r s
  end.

Definition dict_get {V} (d : list (string * V)) (v : value) : option V :=
  match v with
  | VStr s => dict_lookup d s
  | _ => None
  end.

Definition senior_dict : list (string * Z) :=
  [("Yes", 1%Z); ("No", 0%Z); ("1", 1%Z); ("0", 0%Z)].

(** One cell of [.map({...}).fillna(0).astype(int)], lines 66-68. *)
Definition senior_cell (v : value) : Z := default 0%Z (dict_get senior_dict v).

(** Lines 65-70. *)
Definition standardize_senior (c : column) : option column :=
  match c with
  | ColObj vs => Some (ColInt (senior_cell <$> vs))
  | ColInt xs => Some (ColInt xs)
  | ColBool bs => Some (ColInt (Z.b2z <$> bs))
  | ColFloat fs => ColInt <$> floats_astype_int fs
  end.

(** [df.drop_duplicates(subset=["customerID"], keep="first")], line 74. *)
Definition drop_duplicates (df : frame) : option frame :=
  ids ← get_col "customerID" df;
  Some (frame_filter (negb <$> duplicated ids) df).

(** The lambda of lines 82-84. *)
Definition yes_no (x : value) : string :=
  let s := str_lower (str_strip (py_str x)) in
  if PyStr.str_in s ["yes"; "true"; "1"] then "Yes"
  else if PyStr.str_in s ["no"; "false"; "0"] then "No"
  else if notna x then str_capitalize (str_strip (py_str x))
  else "No".

Definition yes_no_columns : list string :=
  ["Partner"; "Dependents"; "PhoneService"; "PaperlessBilling"; "Churn"].

(** The body of the loop of lines 79-85 for one column name. *)
Definition standardize_yes_no (df : frame) (col : string) : frame :=
  match get_col col df with
  | Some c => set_col col (series_apply_str yes_no c) df
  | None => df
  end.

(** Whether [series.str] is available on an object column: pandas infers the
    kind of the non-null cells and refuses the all-integer, all-float,
    integer-and-float and all-boolean kinds. *)
Definition str_accessor_ok (vs : list value) : bool :=
  let nn := filter (fun v => notna v = true) vs in
  let is_str v := match v with VStr _ => true | _ => false end in
  let is_bool v := match v with VBool _ => true | _ => false end in
  match nn with
  | [] => true
  | _ => existsb is_str nn || (existsb is_bool nn && negb (forallb is_bool nn))
  end.

(** One cell of [series.str.method()]: a null cell is kept as it is, and a
    cell that is neither null nor a string gives NaN. *)
Definition str_cell (f : string -> string) (v : value) : value :=
  match v with
  | VStr s => VStr (f s)
  | VNone => VNone
  | _ => VFloat PyFloat.nan
  end.

Definition is_str (v : value) : bool :=
  match v with VStr _ => true | _ => false end.

(** [series.str.method()]; [None] is the [AttributeError] of the accessor.
    The result stays an object Series when a string is among the cells or
    every cell is null; otherwise all its cells are NaN and pandas converts
    it to float64. *)
Definition str_method (f : string -> string) (c : column) : option column :=
  match c with
  | ColObj vs =>
      if str_accessor_ok vs then
        Some (if existsb is_str vs || forallb isna vs
              then ColObj (str_cell f <$> vs)
              else ColFloat ((fun _ => PyFloat.nan) <$> vs))
      else None
  | _ => None
  end.

(** Lines 88-89. *)
Definition standardize_gender (df : frame) : option frame :=
  match get_col "gender" df with
  | None => Some df
  | Some c =>
      c1 ← str_method str_strip c;
      c2 ← str_method str_capitalize c1;
      Some (set_col "gender" c2 df)
  end.

(** The dtype [series.apply] leaves behind: float64, or whatever an empty
    Series had. *)
Definition float_or_empty (c : column) : bool :=
  match c with
  | ColFloat _ => true
  | _ => bool_decide (col_values c = [])
  end.

(** [clean_data(df, source)], lines 16-94. The source tag is only printed. *)
Definition clean_data (df : frame) : option frame :=
  total ← get_col "TotalCharges" df;
  let df := set_col "TotalCharges" (series_apply_float _parse_total_charges total) df in
  monthly ← get_col "MonthlyCharges" df;
  let df := set_col "MonthlyCharges" (series_apply_float _parse_total_charges monthly) df in
  tenure ← get_col "tenure" df;
  tenure ← tenure_to_int tenure;
  let df := set_col "tenure" (ColInt tenure) df in
  total ← get_col "TotalCharges" df;
  monthly ← get_col "MonthlyCharges" df;
  tenure ← get_col "tenure" df;
  let df := set_col "TotalCharges" (impute total monthly tenure) df in
  senior ← get_col "SeniorCitizen" df;
  senior ← standardize_senior senior;
  let df := set_col "SeniorCitizen" senior df in
  df ← drop_duplicates df;
  let df := foldl standardize_yes_no df yes_no_columns in
  standardize_gender df.

(** The mask of line 74: the rows whose [customerID] was not seen before. *)
Definition kept (df : frame) : list bool :=
  match get_col "customerID" df with
  | Some ids => negb <$> duplicated ids
  | None => []
  end.

(** Every tenure of a frame is at least zero. *)
Definition tenure_non_negative (df : frame) : Prop :=
  forall ts, get_col "tenure" df = Some (ColInt ts) -> Forall (fun t => (0 <= t)%Z) ts.

(** The cells of column [c], none when the frame has no such column. *)
Definition cells_of (c : string) (df : frame) : list value :=
  default [] (col_values <$> get_col c df).

(** A cell that the lambda of lines 82-84 sends to a string on which the
    lambda changes nothing. *)
Definition yes_no_stable (x : value) : Prop :=
  yes_no (VStr (yes_no x)) = yes_no x.

(** A cell that line 89 sends to a string on which line 89 changes
    nothing; only strings are rewritten. *)
Definition gender_stable (v : value) : Prop :=
  match v with
  | VStr s =>
      let t := str_capitalize (str_strip s) in str_capitalize (str_strip t) = t
  | _ => True
  end.

#[global] Instance yes_no_stable_dec x : Decision (yes_no_stable x).
Proof. unfold yes_no_stable. apply _. Defined.

#[global] Instance gender_stable_dec v : Decision (gender_stable v).
Proof. destruct v; simpl; apply _. Defined.

(** The text cells of a frame are normalised in one pass. *)
Definition text_stable (df : frame) : Prop :=
  Forall (fun c => Forall yes_no_stable (cells_of c df)) yes_no_columns /\
  Forall gender_stable (cells_of "gender" df).

#[global] Instance text_stable_dec df : Decision (text_stable df).
Proof. unfold text_stable. apply _. Defined.

(** The columns [clean_data] assigns to. *)
Definition cleaned_columns : list string :=
  ["TotalCharges"; "MonthlyCharges"; "tenure"; "SeniorCitizen"; "gender"]
    ++ yes_no_columns.

(** What a run of [clean_data] leaves in place: parsed amounts, an int64
    tenure, imputed totals, an int64 senior flag, no duplicated key,
    normalised Yes/No columns and a normalised gender. *)
Record cleaned (df : frame) : Prop := Cleaned {
  cl_amounts :
    exists T M N,
      get_col "TotalCharges" df = Some T /\
      get_col "MonthlyCharges" df = Some M /\
      get_col "tenure" df = Some (ColInt N) /\
      float_or_empty T = true /\ float_or_empty M = true /\
      impute T M (ColInt N) = T;
  cl_senior : exists S, get_col "SeniorCitizen" df = Some (ColInt S);
  cl_ids :
    exists ids,
      get_col "customerID" df = Some ids /\
      duplicated ids = replicate (col_len ids) false /\
      length (index df) <= col_len ids /\
      forall c col, get_col c df = Some col -> col_len col <= col_len ids;
  cl_yes_no :
    forall c col, c ∈ yes_no_columns -> get_col c df = Some col ->
      series_apply_str yes_no col = col;
  cl_gender :
    forall col, get_col "gender" df = Some col ->
      exists c1, str_method str_strip col = Some c1 /\
                 str_method str_capitalize c1 = Some col;
}.

End Cleaning.

(** ** Numeric views shared by the feature and insight stages *)

(** A cell as a number in a comparison or a division; [None] is the
    [TypeError] of a string or [None] operand. *)
Definition cell_num (v : value) : option num :=
  match v with
  | VInt z => Some (NInt z)
  | VFloat f => Some (NFloat f)
  | VBool b => Some (NInt (Z.b2z b))
  | VNone | VStr _ => None
  end.

Definition numeric_col (c : column) : option (list num) :=
  mapM cell_num (col_values c).

Definition num_is_nan (x : num) : bool :=
  match x with NInt _ => false | NFloat f => PyFloat.is_nan f end.

Definition num_to_float (x : num) : float :=
  match x with NInt z => PyFloat.of_Z z | NFloat f => f end.

(** [b < x] for a bin edge [b] *)
Definition edge_lt (b : Z) (x : num) : bool :=
  match x with
  | NInt z => (b <? z)%Z
  | NFloat f => PyFloat.ltb (PyFloat.of_Z b) f
  end.

(** [x == b] *)
Definition num_eq_edge (x : num) (b : Z) : bool :=
  match x with
  | NInt z => (z =? b)%Z
  | NFloat f => PyFloat.eqb f (PyFloat.of_Z b)
  end.

(** [x > 0] *)
Definition num_pos (x : num) : bool := edge_lt 0 x.

(** [x == 0] *)
Definition num_is_zero (x : num) : bool := num_eq_edge x 0.

(** ** [pd.cut] with right-closed bins *)

(** [bins.searchsorted(x, side="left")]: the number of edges below [x]; a
    NaN sorts after every edge. *)
Definition searchsorted_left (bins : list Z) (x : num) : nat :=
  if num_is_nan x then length bins
  else length (filter (fun b => edge_lt b x = true) bins).

(** One cell of [pd.cut(col, bins, labels, include_lowest=True)]: the bin
    number, forced to 1 on the lowest edge, and no label outside the edges. *)
Definition cut (bins : list Z) (labels : list string) (x : num) : option string :=
  let ids := searchsorted_left bins x in
  let ids := if num_eq_edge x (hd 0%Z bins) then 1 else ids in
  if num_is_nan x || bool_decide (ids = length bins) || bool_decide (ids = 0)
  then None
  else labels !! (ids - 1).

(** [.astype(str)] on the categorical result: a missing category prints as
    ["nan"]. *)
Definition cut_str (bins : list Z) (labels : list string) (x : num) : string :=
  default "nan" (cut bins labels x).

Definition tenure_bins : list Z := [0; 12; 24; 48; 60; 100]%Z.
Definition tenure_labels : list string :=
  ["0-12 mois"; "13-24 mois"; "25-48 mois"; "49-60 mois"; "61+ mois"].

Definition charges_bins : list Z := [0; 30; 50; 70; 90; 200]%Z.
Definition charges_labels : list string :=
  ["0-30$"; "31-50$"; "51-70$"; "71-90$"; "91+$"].

(** ** The feature engineering engine ([create_insights.py], lines 21-103) *)

Section Features.
Context `{B : Builtins}.

Definition derived_columns : list string :=
  ["tenure_group"; "monthly_charges_group"; "total_services"; "has_streaming";
   "has_security"; "is_high_value"; "avg_monthly_spend"; "contract_risk_score"].

Definition service_cols : list string :=
  ["PhoneService"; "MultipleLines"; "InternetService"; "OnlineSecurity";
   "OnlineBackup"; "DeviceProtection"; "TechSupport"; "StreamingTV";
   "StreamingMovies"].

(** The lambda of line 64. *)
Definition service_flag (x : value) : Z :=
  if PyStr.str_in (py_str x) ["Yes"; "DSL"; "Fiber optic"] then 1%Z else 0%Z.

(** The body of the loop of lines 61-65: [total_services += flags]. *)
Definition add_service (df : frame) (col : string) : frame :=
  match get_col col df, get_col "total_services" df with
  | Some c, Some (ColInt acc) =>
      set_col "total_services"
        (ColInt (zip_with Z.add acc (service_flag <$> col_values c))) df
  | _, _ => df
  end.

(** [df.get(col, "No") == "Yes"]: cell by cell on a present column, the
    scalar [False] broadcast to every row on an absent one. *)
Definition eq_yes (df : frame) (col : string) : list bool :=
  match get_col col df with
  | Some c => (fun v => bool_decide (v = VStr "Yes")) <$> col_values c
  | None => replicate (nrows df) false
  end.

(** [series.median()]: NaNs are skipped; the middle value of the sorted
    rest, or the mean of the two middle values. *)
Definition median (fs : list float) : float :=
  let vs := merge_sort (fun a b => Is_true (PyFloat.leb a b))
              (filter (fun f => PyFloat.is_nan f = false) fs) in
  let n := length vs in
  if bool_decide (n = 0) then PyFloat.nan
  else if Nat.odd n then default PyFloat.nan (vs !! (n / 2))
  else match vs !! (n / 2 - 1), vs !! (n / 2) with
       | Some a, Some b => PyFloat.div (PyFloat.add a b) (PyFloat.of_Z 2)
       | _, _ => PyFloat.nan
       end.

(** One row of [np.where(tenure > 0, total / tenure, monthly)], lines 85-89. *)
Definition avg_spend_cell (tn : num) (tm : num * num) : float :=
  if num_pos tn then PyFloat.div (num_to_float tm.1) (num_to_float tn)
  else num_to_float tm.2.

(** Dividing two object columns runs Python's [/] cell by cell, which raises
    [ZeroDivisionError] on a zero divisor; numpy's division does not raise. *)
Definition division_raises (total tenure : column) (tn : list num) : bool :=
  is_object total && is_object tenure && existsb num_is_zero tn.

Definition contract_risk : list (string * Z) :=
  [("Month-to-month", 3%Z); ("One year", 2%Z); ("Two year", 1%Z)].

(** [series.map(contract_risk).fillna(2)], line 97: int64 when every cell is
    mapped, float64 with the default 2 otherwise. *)
Definition contract_risk_score (c : column) : column :=
  let ms := dict_get contract_risk <$> col_values c in
  match mapM id ms with
  | Some zs => ColInt zs
  | None => ColFloat ((fun m => PyFloat.of_Z (default 2%Z m)) <$> ms)
  end.

(** [add_engineered_features(df)] *)
Definition add_engineered_features (df : frame) : option frame :=
  tenure ← get_col "tenure" df;
  tn ← numeric_col tenure;
  let df := set_col "tenure_group"
              (ColObj ((fun x => VStr (cut_str tenure_bins tenure_labels x)) <$> tn)) df in
  monthly ← get_col "MonthlyCharges" df;
  mn ← numeric_col monthly;
  let df := set_col "monthly_charges_group"
              (ColObj ((fun x => VStr (cut_str charges_bins charges_labels x)) <$> mn)) df in
  let df := set_col "total_services" (ColInt (replicate (nrows df) 0%Z)) df in
  let df := foldl add_service df service_cols in
  let df := set_col "has_streaming"
              (ColBool (zip_with orb (eq_yes df "StreamingTV") (eq_yes df "StreamingMovies"))) df in
  let df := set_col "has_security"
              (ColBool (zip_with orb
                 (zip_with orb (eq_yes df "OnlineSecurity") (eq_yes df "OnlineBackup"))
                 (eq_yes df "DeviceProtection"))) df in
  monthly ← get_col "MonthlyCharges" df;
  mn ← numeric_col monthly;
  let median_charges := median (num_to_float <$> mn) in
  let df := set_col "is_high_value"
              (ColBool ((fun m => PyFloat.ltb median_charges (num_to_float m)) <$> mn)) df in
  tenure ← get_col "tenure" df;
  tn ← numeric_col tenure;
  total ← get_col "TotalCharges" df;
  tt ← numeric_col total;
  monthly ← get_col "MonthlyCharges" df;
  mn ← numeric_col monthly;
  guard (division_raises total tenure tn = false);;
  let df := set_col "avg_monthly_spend"
              (ColFloat (zip_with avg_spend_cell tn (zip tt mn))) df in
  contract ← get_col "Contract" df;
  Some (set_col "contract_risk_score" (contract_risk_score contract) df).

End Features.

(** ** The insight aggregator ([create_insights.py], lines 106-259) *)

(** The order [groupby] sorts its keys in: numbers by value, then strings by
    code point. Null keys never reach the sort. *)
Definition key_rank (k : key) : Z :=
  match k with
  | KInf true => 0
  | KNum _ _ => 1
  | KInf false => 2
  | KStr _ => 3
  | KNaN => 4
  | KNone => 5
  end.

(** [m1 * 2^e1 <= m2 * 2^e2] *)
Definition dyadic_leb (m1 e1 m2 e2 : Z) : bool :=
  let e := Z.min e1 e2 in
  (Z.shiftl m1 (e1 - e) <=? Z.shiftl m2 (e2 - e))%Z.

Definition key_leb (a b : key) : bool :=
  match a, b with
  | KNum m1 e1, KNum m2 e2 => dyadic_leb m1 e1 m2 e2
  | KStr s, KStr t => String.leb s t
  | _, _ => (key_rank a <=? key_rank b)%Z
  end.

Definition key_is_null (k : key) : bool :=
  match k with KNone | KNaN => true | _ => false end.

(** The rows of a column at the given positions. *)
Definition take_rows {A} (ps : list nat) (l : list A) : list A :=
  omap (fun p => l !! p) ps.

Definition col_take (ps : list nat) (c : column) : column :=
  match c with
  | ColInt xs => ColInt (take_rows ps xs)
  | ColFloat xs => ColFloat (take_rows ps xs)
  | ColBool xs => ColBool (take_rows ps xs)
  | ColObj xs => ColObj (take_rows ps xs)
  end.

(** The positions of the cells with key [k]. *)
Definition key_positions (k : key) (ks : list key) : list nat :=
  filter (fun p => ks !! p = Some k) (seq 0 (length ks)).

(** The first cell with key [k]: the label [groupby] hands to the loop. *)
Definition key_label (k : key) (vs : list value) : value :=
  default VNone (head (filter (fun v => key_of v = k) vs)).

(** [df.groupby(col)]: one group per distinct non-null key, in sorted key
    order, each with its label and the positions of its rows. *)
Definition groupby (c : column) : list (value * list nat) :=
  let vs := col_values c in
  let ks := key_of <$> vs in
  let keys := merge_sort (fun a b => Is_true (key_leb a b))
                (remove_dups (filter (fun k => key_is_null k = false) ks)) in
  (fun k => (key_label k vs, key_positions k ks)) <$> keys.

Record insight := Insight {
  insight_name : string;
  dimension : string;
  category : string;
  total_customers : nat;
  churned_customers : Z;
  churn_rate : float;
  avg_monthly_charges : float;
  avg_tenure : float;
  avg_total_charges : float;
  data_source : string;
}.

Section Insights.
Context `{B : Builtins}.

(** Lines 128-131: the churn flag of each row. On an object column the dict
    maps ["Yes"] and ["No"]; any other cell is missing ([None] here). On a
    typed column [astype(bool)] is true on every non-zero value, NaN
    included. *)
Definition has_churned (c : column) : list (option bool) :=
  match c with
  | ColObj vs => dict_get [("Yes", true); ("No", false)] <$> vs
  | ColInt xs => (fun z => Some (negb (z =? 0)%Z)) <$> xs
  | ColFloat fs => (fun f => Some (negb (PyFloat.eqb f (S754_zero false)))) <$> fs
  | ColBool bs => Some <$> bs
  end.

(** [int(flags.sum())]: the missing flags count for nothing. *)
Definition churn_sum (flags : list (option bool)) : Z :=
  Z.of_nat (length (filter (fun o => o = Some true) flags)).

(** The flags [mean] averages: the ones that are not missing. *)
Definition churn_valid (flags : list (option bool)) : Z :=
  Z.of_nat (length (filter (fun o => is_Some o) flags)).

(** [flags.mean()]: true flags over non-missing flags, NaN when there is no
    flag to average. *)
Definition churn_mean (flags : list (option bool)) : float :=
  PyFloat.div (PyFloat.of_Z (churn_sum flags)) (PyFloat.of_Z (churn_valid flags)).

(** A cell under [mean]: a null is skipped, a string raises. *)
Definition mean_cell (v : value) : option (option float) :=
  match v with
  | VNone => Some None
  | VFloat f => Some (if PyFloat.is_nan f then None else Some f)
  | VInt z => Some (Some (PyFloat.of_Z z))
  | VBool b => Some (Some (PyFloat.of_Z (Z.b2z b)))
  | VStr _ => None
  end.

(** [series.mean()]: the sum of the non-null cells over their count. *)
Definition col_mean (c : column) : option float :=
  cells ← mapM mean_cell (col_values c);
  let vs := omap id cells in
  Some (if bool_decide (vs = []) then PyFloat.nan
        else PyFloat.div (float_sum vs) (PyFloat.of_Z (Z.of_nat (length vs)))).

(** The dict built in each loop body and at lines 241-252, for the rows at
    positions [ps]. *)
Definition summarize (name dim cat : string) (df : frame)
    (flags : list (option bool)) (ps : list nat) (source : string) : option insight :=
  let g := take_rows ps flags in
  monthly ← get_col "MonthlyCharges" df;
  am ← col_mean (col_take ps monthly);
  tenure ← get_col "tenure" df;
  at_ ← col_mean (col_take ps tenure);
  total ← get_col "TotalCharges" df;
  atc ← col_mean (col_take ps total);
  Some {| insight_name := name;
          dimension := dim;
          category := cat;
          total_customers := length ps;
          churned_customers := churn_sum g;
          churn_rate := py_round (PyFloat.mul (churn_mean g) (PyFloat.of_Z 100)) 2;
          avg_monthly_charges := py_round am 2;
          avg_tenure := py_round at_ 1;
          avg_total_charges := py_round atc 2;
          data_source := source |}.

(** One [for key, group in df_work.groupby(col)] loop. *)
Definition insights_by (name col : string) (label : value -> string) (df : frame)
    (flags : list (option bool)) (source : string) : option (list insight) :=
  c ← get_col col df;
  mapM (fun g => summarize name col (label g.1) df flags g.2 source) (groupby c).

(** The same loop under [if col in df_work.columns]. *)
Definition insights_by_if_present (name col : string) (label : value -> string)
    (df : frame) (flags : list (option bool)) (source : string) : option (list insight) :=
  match get_col col df with
  | Some _ => insights_by name col label df flags source
  | None => Some []
  end.

(** ["Senior" if senior == 1 else "Non-Senior"], line 214. *)
Definition senior_label (v : value) : string :=
  if bool_decide (key_of v = key_of_Z 1) then "Senior" else "Non-Senior".

(** [create_churn_insights(df, source)] *)
Definition create_churn_insights (df : frame) (source : string) : option (list insight) :=
  churn ← get_col "Churn" df;
  let flags := has_churned churn in
  r1 ← insights_by "churn_by_contract" "Contract" py_str df flags source;
  r2 ← insights_by "churn_by_internet" "InternetService" py_str df flags source;
  r3 ← insights_by "churn_by_payment" "PaymentMethod" py_str df flags source;
  r4 ← insights_by_if_present "churn_by_tenure_group" "tenure_group" py_str df flags source;
  r5 ← insights_by "churn_by_gender" "gender" py_str df flags source;
  r6 ← insights_by "churn_by_senior" "SeniorCitizen" senior_label df flags source;
  r7 ← insights_by_if_present "churn_by_charges_group" "monthly_charges_group" py_str
         df flags source;
  s ← summarize "overall_summary" "ALL" "Total" df flags (seq 0 (nrows df)) source;
  Some (r1 ++ r2 ++ r3 ++ r4 ++ r5 ++ r6 ++ r7 ++ [s]).

End Insights.

(** ** Text as code points

    The tables are the case mappings, the whitespace, the case-ignorable
    and cased code points and the decimal digits of the Unicode database
    CPython 3.11 carries (Unicode 14). A range [(lo, hi, step, d)] maps every
    [step]-th code point from [lo] to [hi] to itself plus [d]. *)

Module Unicode.

Definition whitespace : list N :=
  [0x9; 0xA; 0xB; 0xC; 0xD; 0x1C; 0x1D; 0x1E; 0x1F; 0x20; 0x85; 0xA0; 0x1680;
   0x2000; 0x2001; 0x2002; 0x2003; 0x2004; 0x2005; 0x2006; 0x2007; 0x2008;
   0x2009; 0x200A; 0x2028; 0x2029; 0x202F; 0x205F; 0x3000]%N.

Definition lower_ranges : list (N * N * N * Z) :=
  [(0x41, 0x5A, 1, 32%Z); (0xC0, 0xD6, 1, 32%Z); (0xD8, 0xDE, 1, 32%Z);
   (0x100, 0x12E, 2, 1%Z); (0x132, 0x136, 2, 1%Z); (0x139, 0x147, 2, 1%Z);
   (0x14A, 0x176, 2, 1%Z); (0x178, 0x178, 1, (-121)%Z); (0x179, 0x17D, 2, 1%Z);
   (0x181, 0x181, 1, 210%Z); (0x182, 0x184, 2, 1%Z); (0x186, 0x186, 1, 206%Z);
   (0x187, 0x187, 1, 1%Z); (0x189, 0x18A, 1, 205%Z); (0x18B, 0x18B, 1, 1%Z);
   (0x18E, 0x18E, 1, 79%Z); (0x18F, 0x18F, 1, 202%Z); (0x190, 0x190, 1, 203%Z);
   (0x191, 0x191, 1, 1%Z); (0x193, 0x193, 1, 205%Z); (0x194, 0x194, 1, 207%Z);
   (0x196, 0x196, 1, 211%Z); (0x197, 0x197, 1, 209%Z); (0x198, 0x198, 1, 1%Z);
   (0x19C, 0x19C, 1, 211%Z); (0x19D, 0x19D, 1, 213%Z);
   (0x19F, 0x19F, 1, 214%Z); (0x1A0, 0x1A4, 2, 1%Z); (0x1A6, 0x1A6, 1, 218%Z);
   (0x1A7, 0x1A7, 1, 1%Z); (0x1A9, 0x1A9, 1, 218%Z); (0x1AC, 0x1AC, 1, 1%Z);
   (0x1AE, 0x1AE, 1, 218%Z); (0x1AF, 0x1AF, 1, 1%Z); (0x1B1, 0x1B2, 1, 217%Z);
   (0x1B3, 0x1B5, 2, 1%Z); (0x1B7, 0x1B7, 1, 219%Z); (0x1B8, 0x1B8, 1, 1%Z);
   (0x1BC, 0x1BC, 1, 1%Z); (0x1C4, 0x1C4, 1, 2%Z); (0x1C5, 0x1C5, 1, 1%Z);
   (0x1C7, 0x1C7, 1, 2%Z); (0x1C8, 0x1C8, 1, 1%Z); (0x1CA, 0x1CA, 1, 2%Z);
   (0x1CB, 0x1DB, 2, 1%Z); (0x1DE, 0x1EE, 2, 1%Z); (0x1F1, 0x1F1, 1, 2%Z);
   (0x1F2, 0x1F4, 2, 1%Z); (0x1F6, 0x1F6, 1, (-97)%Z); (0x1F7, 0x1F7, 1, (-56)%Z);
   (0x1F8, 0x21E, 2, 1%Z); (0x220, 0x220, 1, (-130)%Z); (0x222, 0x232, 2, 1%Z);
   (0x23A, 0x23A, 1, 10795%Z); (0x23B, 0x23B, 1, 1%Z);
   (0x23D, 0x23D, 1, (-163)%Z); (0x23E, 0x23E, 1, 10792%Z);
   (0x241, 0x241, 1, 1%Z); (0x243, 0x243, 1, (-195)%Z); (0x244, 0x244, 1, 69%Z);
   (0x245, 0x245, 1, 71%Z); (0x246, 0x24E, 2, 1%Z); (0x370, 0x372, 2, 1%Z);
   (0x376, 0x376, 1, 1%Z); (0x37F, 0x37F, 1, 116%Z); (0x386, 0x386, 1, 38%Z);
   (0x388, 0x38A, 1, 37%Z); (0x38C, 0x38C, 1, 64%Z); (0x38E, 0x38F, 1, 63%Z);
   (0x391, 0x3A1, 1, 32%Z); (0x3A3, 0x3AB, 1, 32%Z); (0x3CF, 0x3CF, 1, 8%Z);
   (0x3D8, 0x3EE, 2, 1%Z); (0x3F4, 0x3F4, 1, (-60)%Z); (0x3F7, 0x3F7, 1, 1%Z);
   (0x3F9, 0x3F9, 1, (-7)%Z); (0x3FA, 0x3FA, 1, 1%Z); (0x3FD, 0x3FF, 1, (-130)%Z);
   (0x400, 0x40F, 1, 80%Z); (0x410, 0x42F, 1, 32%Z); (0x460, 0x480, 2, 1%Z);
   (0x48A, 0x4BE, 2, 1%Z); (0x4C0, 0x4C0, 1, 15%Z); (0x4C1, 0x4CD, 2, 1%Z);
   (0x4D0, 0x52E, 2, 1%Z); (0x531, 0x556, 1, 48%Z);
   (0x10A0, 0x10C5, 1, 7264%Z); (0x10C7, 0x10C7, 1, 7264%Z);
   (0x10CD, 0x10CD, 1, 7264%Z); (0x13A0, 0x13EF, 1, 38864%Z);
   (0x13F0, 0x13F5, 1, 8%Z); (0x1C90, 0x1CBA, 1, (-3008)%Z);
   (0x1CBD, 0x1CBF, 1, (-3008)%Z); (0x1E00, 0x1E94, 2, 1%Z);
   (0x1E9E, 0x1E9E, 1, (-7615)%Z); (0x1EA0, 0x1EFE, 2, 1%Z);
   (0x1F08, 0x1F0F, 1, (-8)%Z); (0x1F18, 0x1F1D, 1, (-8)%Z);
   (0x1F28, 0x1F2F, 1, (-8)%Z); (0x1F38, 0x1F3F, 1, (-8)%Z);
   (0x1F48, 0x1F4D, 1, (-8)%Z); (0x1F59, 0x1F5F, 2, (-8)%Z);
   (0x1F68, 0x1F6F, 1, (-8)%Z); (0x1F88, 0x1F8F, 1, (-8)%Z);
   (0x1F98, 0x1F9F, 1, (-8)%Z); (0x1FA8, 0x1FAF, 1, (-8)%Z);
   (0x1FB8, 0x1FB9, 1, (-8)%Z); (0x1FBA, 0x1FBB, 1, (-74)%Z);
   (0x1FBC, 0x1FBC, 1, (-9)%Z); (0x1FC8, 0x1FCB, 1, (-86)%Z);
   (0x1FCC, 0x1FCC, 1, (-9)%Z); (0x1FD8, 0x1FD9, 1, (-8)%Z);
   (0x1FDA, 0x1FDB, 1, (-100)%Z); (0x1FE8, 0x1FE9, 1, (-8)%Z);
   (0x1FEA, 0x1FEB, 1, (-112)%Z); (0x1FEC, 0x1FEC, 1, (-7)%Z);
   (0x1FF8, 0x1FF9, 1, (-128)%Z); (0x1FFA, 0x1FFB, 1, (-126)%Z);
   (0x1FFC, 0x1FFC, 1, (-9)%Z); (0x2126, 0x2126, 1, (-7517)%Z);
   (0x212A, 0x212A, 1, (-8383)%Z); (0x212B, 0x212B, 1, (-8262)%Z);
   (0x2132, 0x2132, 1, 28%Z); (0x2160, 0x216F, 1, 16%Z);
   (0x2183, 0x2183, 1, 1%Z); (0x24B6, 0x24CF, 1, 26%Z);
   (0x2C00, 0x2C2F, 1, 48%Z); (0x2C60, 0x2C60, 1, 1%Z);
   (0x2C62, 0x2C62, 1, (-10743)%Z); (0x2C63, 0x2C63, 1, (-3814)%Z);
   (0x2C64, 0x2C64, 1, (-10727)%Z); (0x2C67, 0x2C6B, 2, 1%Z);
   (0x2C6D, 0x2C6D, 1, (-10780)%Z); (0x2C6E, 0x2C6E, 1, (-10749)%Z);
   (0x2C6F, 0x2C6F, 1, (-10783)%Z); (0x2C70, 0x2C70, 1, (-10782)%Z);
   (0x2C72, 0x2C72, 1, 1%Z); (0x2C75, 0x2C75, 1, 1%Z);
   (0x2C7E, 0x2C7F, 1, (-10815)%Z); (0x2C80, 0x2CE2, 2, 1%Z);
   (0x2CEB, 0x2CED, 2, 1%Z); (0x2CF2, 0x2CF2, 1, 1%Z);
   (0xA640, 0xA66C, 2, 1%Z); (0xA680, 0xA69A, 2, 1%Z);
   (0xA722, 0xA72E, 2, 1%Z); (0xA732, 0xA76E, 2, 1%Z);
   (0xA779, 0xA77B, 2, 1%Z); (0xA77D, 0xA77D, 1, (-35332)%Z);
   (0xA77E, 0xA786, 2, 1%Z); (0xA78B, 0xA78B, 1, 1%Z);
   (0xA78D, 0xA78D, 1, (-42280)%Z); (0xA790, 0xA792, 2, 1%Z);
   (0xA796, 0xA7A8, 2, 1%Z); (0xA7AA, 0xA7AA, 1, (-42308)%Z);
   (0xA7AB, 0xA7AB, 1, (-42319)%Z); (0xA7AC, 0xA7AC, 1, (-42315)%Z);
   (0xA7AD, 0xA7AD, 1, (-42305)%Z); (0xA7AE, 0xA7AE, 1, (-42308)%Z);
   (0xA7B0, 0xA7B0, 1, (-42258)%Z); (0xA7B1, 0xA7B1, 1, (-42282)%Z);
   (0xA7B2, 0xA7B2, 1, (-42261)%Z); (0xA7B3, 0xA7B3, 1, 928%Z);
   (0xA7B4, 0xA7C2, 2, 1%Z); (0xA7C4, 0xA7C4, 1, (-48)%Z);
   (0xA7C5, 0xA7C5, 1, (-42307)%Z); (0xA7C6, 0xA7C6, 1, (-35384)%Z);
   (0xA7C7, 0xA7C9, 2, 1%Z); (0xA7D0, 0xA7D0, 1, 1%Z);
   (0xA7D6, 0xA7D8, 2, 1%Z); (0xA7F5, 0xA7F5, 1, 1%Z);
   (0xFF21, 0xFF3A, 1, 32%Z); (0x10400, 0x10427, 1, 40%Z);
   (0x104B0, 0x104D3, 1, 40%Z); (0x10570, 0x10594, 2, 39%Z);
   (0x10571, 0x10579, 2, 39%Z); (0x1057D, 0x10589, 2, 39%Z);
   (0x1058D, 0x10591, 2, 39%Z); (0x10595, 0x10595, 1, 39%Z);
   (0x10C80, 0x10CB2, 1, 64%Z); (0x118A0, 0x118BF, 1, 32%Z);
   (0x16E40, 0x16E5F, 1, 32%Z); (0x1E900, 0x1E921, 1, 34%Z)]%N.

Definition lower_special : list (N * list N) :=
  [(0x130, [0x69; 0x307])]%N.

Definition title_ranges : list (N * N * N * Z) :=
  [(0x61, 0x7A, 1, (-32)%Z); (0xB5, 0xB5, 1, 743%Z); (0xE0, 0xF6, 1, (-32)%Z);
   (0xF8, 0xFE, 1, (-32)%Z); (0xFF, 0xFF, 1, 121%Z); (0x101, 0x12F, 2, (-1)%Z);
   (0x131, 0x131, 1, (-232)%Z); (0x133, 0x137, 2, (-1)%Z); (0x13A, 0x148, 2, (-1)%Z);
   (0x14B, 0x177, 2, (-1)%Z); (0x17A, 0x17E, 2, (-1)%Z); (0x17F, 0x17F, 1, (-300)%Z);
   (0x180, 0x180, 1, 195%Z); (0x183, 0x185, 2, (-1)%Z); (0x188, 0x188, 1, (-1)%Z);
   (0x18C, 0x18C, 1, (-1)%Z); (0x192, 0x192, 1, (-1)%Z); (0x195, 0x195, 1, 97%Z);
   (0x199, 0x199, 1, (-1)%Z); (0x19A, 0x19A, 1, 163%Z); (0x19E, 0x19E, 1, 130%Z);
   (0x1A1, 0x1A5, 2, (-1)%Z); (0x1A8, 0x1A8, 1, (-1)%Z); (0x1AD, 0x1AD, 1, (-1)%Z);
   (0x1B0, 0x1B0, 1, (-1)%Z); (0x1B4, 0x1B6, 2, (-1)%Z); (0x1B9, 0x1B9, 1, (-1)%Z);
   (0x1BD, 0x1BD, 1, (-1)%Z); (0x1BF, 0x1BF, 1, 56%Z); (0x1C4, 0x1C4, 1, 1%Z);
   (0x1C6, 0x1C6, 1, (-1)%Z); (0x1C7, 0x1C7, 1, 1%Z); (0x1C9, 0x1C9, 1, (-1)%Z);
   (0x1CA, 0x1CA, 1, 1%Z); (0x1CC, 0x1DC, 2, (-1)%Z); (0x1DD, 0x1DD, 1, (-79)%Z);
   (0x1DF, 0x1EF, 2, (-1)%Z); (0x1F1, 0x1F1, 1, 1%Z); (0x1F3, 0x1F5, 2, (-1)%Z);
   (0x1F9, 0x21F, 2, (-1)%Z); (0x223, 0x233, 2, (-1)%Z); (0x23C, 0x23C, 1, (-1)%Z);
   (0x23F, 0x240, 1, 10815%Z); (0x242, 0x242, 1, (-1)%Z);
   (0x247, 0x24F, 2, (-1)%Z); (0x250, 0x250, 1, 10783%Z);
   (0x251, 0x251, 1, 10780%Z); (0x252, 0x252, 1, 10782%Z);
   (0x253, 0x253, 1, (-210)%Z); (0x254, 0x254, 1, (-206)%Z);
   (0x256, 0x257, 1, (-205)%Z); (0x259, 0x259, 1, (-202)%Z);
   (0x25B, 0x25B, 1, (-203)%Z); (0x25C, 0x25C, 1, 42319%Z);
   (0x260, 0x260, 1, (-205)%Z); (0x261, 0x261, 1, 42315%Z);
   (0x263, 0x263, 1, (-207)%Z); (0x265, 0x265, 1, 42280%Z);
   (0x266, 0x266, 1, 42308%Z); (0x268, 0x268, 1, (-209)%Z);
   (0x269, 0x269, 1, (-211)%Z); (0x26A, 0x26A, 1, 42308%Z);
   (0x26B, 0x26B, 1, 10743%Z); (0x26C, 0x26C, 1, 42305%Z);
   (0x26F, 0x26F, 1, (-211)%Z); (0x271, 0x271, 1, 10749%Z);
   (0x272, 0x272, 1, (-213)%Z); (0x275, 0x275, 1, (-214)%Z);
   (0x27D, 0x27D, 1, 10727%Z); (0x280, 0x280, 1, (-218)%Z);
   (0x282, 0x282, 1, 42307%Z); (0x283, 0x283, 1, (-218)%Z);
   (0x287, 0x287, 1, 42282%Z); (0x288, 0x288, 1, (-218)%Z);
   (0x289, 0x289, 1, (-69)%Z); (0x28A, 0x28B, 1, (-217)%Z);
   (0x28C, 0x28C, 1, (-71)%Z); (0x292, 0x292, 1, (-219)%Z);
   (0x29D, 0x29D, 1, 42261%Z); (0x29E, 0x29E, 1, 42258%Z);
   (0x345, 0x345, 1, 84%Z); (0x371, 0x373, 2, (-1)%Z); (0x377, 0x377, 1, (-1)%Z);
   (0x37B, 0x37D, 1, 130%Z); (0x3AC, 0x3AC, 1, (-38)%Z);
   (0x3AD, 0x3AF, 1, (-37)%Z); (0x3B1, 0x3C1, 1, (-32)%Z);
   (0x3C2, 0x3C2, 1, (-31)%Z); (0x3C3, 0x3CB, 1, (-32)%Z);
   (0x3CC, 0x3CC, 1, (-64)%Z); (0x3CD, 0x3CE, 1, (-63)%Z);
   (0x3D0, 0x3D0, 1, (-62)%Z); (0x3D1, 0x3D1, 1, (-57)%Z);
   (0x3D5, 0x3D5, 1, (-47)%Z); (0x3D6, 0x3D6, 1, (-54)%Z); (0x3D7, 0x3D7, 1, (-8)%Z);
   (0x3D9, 0x3EF, 2, (-1)%Z); (0x3F0, 0x3F0, 1, (-86)%Z); (0x3F1, 0x3F1, 1, (-80)%Z);
   (0x3F2, 0x3F2, 1, 7%Z); (0x3F3, 0x3F3, 1, (-116)%Z); (0x3F5, 0x3F5, 1, (-96)%Z);
   (0x3F8, 0x3F8, 1, (-1)%Z); (0x3FB, 0x3FB, 1, (-1)%Z); (0x430, 0x44F, 1, (-32)%Z);
   (0x450, 0x45F, 1, (-80)%Z); (0x461, 0x481, 2, (-1)%Z); (0x48B, 0x4BF, 2, (-1)%Z);
   (0x4C2, 0x4CE, 2, (-1)%Z); (0x4CF, 0x4CF, 1, (-15)%Z); (0x4D1, 0x52F, 2, (-1)%Z);
   (0x561, 0x586, 1, (-48)%Z); (0x13F8, 0x13FD, 1, (-8)%Z);
   (0x1C80, 0x1C80, 1, (-6254)%Z); (0x1C81, 0x1C81, 1, (-6253)%Z);
   (0x1C82, 0x1C82, 1, (-6244)%Z); (0x1C83, 0x1C84, 1, (-6242)%Z);
   (0x1C85, 0x1C85, 1, (-6243)%Z); (0x1C86, 0x1C86, 1, (-6236)%Z);
   (0x1C87, 0x1C87, 1, (-6181)%Z); (0x1C88, 0x1C88, 1, 35266%Z);
   (0x1D79, 0x1D79, 1, 35332%Z); (0x1D7D, 0x1D7D, 1, 3814%Z);
   (0x1D8E, 0x1D8E, 1, 35384%Z); (0x1E01, 0x1E95, 2, (-1)%Z);
   (0x1E9B, 0x1E9B, 1, (-59)%Z); (0x1EA1, 0x1EFF, 2, (-1)%Z);
   (0x1F00, 0x1F07, 1, 8%Z); (0x1F10, 0x1F15, 1, 8%Z);
   (0x1F20, 0x1F27, 1, 8%Z); (0x1F30, 0x1F37, 1, 8%Z);
   (0x1F40, 0x1F45, 1, 8%Z); (0x1F51, 0x1F57, 2, 8%Z);
   (0x1F60, 0x1F67, 1, 8%Z); (0x1F70, 0x1F71, 1, 74%Z);
   (0x1F72, 0x1F75, 1, 86%Z); (0x1F76, 0x1F77, 1, 100%Z);
   (0x1F78, 0x1F79, 1, 128%Z); (0x1F7A, 0x1F7B, 1, 112%Z);
   (0x1F7C, 0x1F7D, 1, 126%Z); (0x1F80, 0x1F87, 1, 8%Z);
   (0x1F90, 0x1F97, 1, 8%Z); (0x1FA0, 0x1FA7, 1, 8%Z);
   (0x1FB0, 0x1FB1, 1, 8%Z); (0x1FB3, 0x1FB3, 1, 9%Z);
   (0x1FBE, 0x1FBE, 1, (-7205)%Z); (0x1FC3, 0x1FC3, 1, 9%Z);
   (0x1FD0, 0x1FD1, 1, 8%Z); (0x1FE0, 0x1FE1, 1, 8%Z);
   (0x1FE5, 0x1FE5, 1, 7%Z); (0x1FF3, 0x1FF3, 1, 9%Z);
   (0x214E, 0x214E, 1, (-28)%Z); (0x2170, 0x217F, 1, (-16)%Z);
   (0x2184, 0x2184, 1, (-1)%Z); (0x24D0, 0x24E9, 1, (-26)%Z);
   (0x2C30, 0x2C5F, 1, (-48)%Z); (0x2C61, 0x2C61, 1, (-1)%Z);
   (0x2C65, 0x2C65, 1, (-10795)%Z); (0x2C66, 0x2C66, 1, (-10792)%Z);
   (0x2C68, 0x2C6C, 2, (-1)%Z); (0x2C73, 0x2C73, 1, (-1)%Z);
   (0x2C76, 0x2C76, 1, (-1)%Z); (0x2C81, 0x2CE3, 2, (-1)%Z);
   (0x2CEC, 0x2CEE, 2, (-1)%Z); (0x2CF3, 0x2CF3, 1, (-1)%Z);
   (0x2D00, 0x2D25, 1, (-7264)%Z); (0x2D27, 0x2D27, 1, (-7264)%Z);
   (0x2D2D, 0x2D2D, 1, (-7264)%Z); (0xA641, 0xA66D, 2, (-1)%Z);
   (0xA681, 0xA69B, 2, (-1)%Z); (0xA723, 0xA72F, 2, (-1)%Z);
   (0xA733, 0xA76F, 2, (-1)%Z); (0xA77A, 0xA77C, 2, (-1)%Z);
   (0xA77F, 0xA787, 2, (-1)%Z); (0xA78C, 0xA78C, 1, (-1)%Z);
   (0xA791, 0xA793, 2, (-1)%Z); (0xA794, 0xA794, 1, 48%Z);
   (0xA797, 0xA7A9, 2, (-1)%Z); (0xA7B5, 0xA7C3, 2, (-1)%Z);
   (0xA7C8, 0xA7CA, 2, (-1)%Z); (0xA7D1, 0xA7D1, 1, (-1)%Z);
   (0xA7D7, 0xA7D9, 2, (-1)%Z); (0xA7F6, 0xA7F6, 1, (-1)%Z);
   (0xAB53, 0xAB53, 1, (-928)%Z); (0xAB70, 0xABBF, 1, (-38864)%Z);
   (0xFF41, 0xFF5A, 1, (-32)%Z); (0x10428, 0x1044F, 1, (-40)%Z);
   (0x104D8, 0x104FB, 1, (-40)%Z); (0x10597, 0x105BB, 2, (-39)%Z);
   (0x10598, 0x105A0, 2, (-39)%Z); (0x105A4, 0x105B0, 2, (-39)%Z);
   (0x105B4, 0x105B8, 2, (-39)%Z); (0x105BC, 0x105BC, 1, (-39)%Z);
   (0x10CC0, 0x10CF2, 1, (-64)%Z); (0x118C0, 0x118DF, 1, (-32)%Z);
   (0x16E60, 0x16E7F, 1, (-32)%Z); (0x1E922, 0x1E943, 1, (-34)%Z)]%N.

Definition title_special : list (N * list N) :=
  [(0xDF, [0x53; 0x73]); (0x149, [0x2BC; 0x4E]); (0x1F0, [0x4A; 0x30C]);
   (0x390, [0x399; 0x308; 0x301]); (0x3B0, [0x3A5; 0x308; 0x301]);
   (0x587, [0x535; 0x582]); (0x1E96, [0x48; 0x331]); (0x1E97, [0x54; 0x308]);
   (0x1E98, [0x57; 0x30A]); (0x1E99, [0x59; 0x30A]); (0x1E9A, [0x41; 0x2BE]);
   (0x1F50, [0x3A5; 0x313]); (0x1F52, [0x3A5; 0x313; 0x300]);
   (0x1F54, [0x3A5; 0x313; 0x301]); (0x1F56, [0x3A5; 0x313; 0x342]);
   (0x1FB2, [0x1FBA; 0x345]); (0x1FB4, [0x386; 0x345]);
   (0x1FB6, [0x391; 0x342]); (0x1FB7, [0x391; 0x342; 0x345]);
   (0x1FC2, [0x1FCA; 0x345]); (0x1FC4, [0x389; 0x345]);
   (0x1FC6, [0x397; 0x342]); (0x1FC7, [0x397; 0x342; 0x345]);
   (0x1FD2, [0x399; 0x308; 0x300]); (0x1FD3, [0x399; 0x308; 0x301]);
   (0x1FD6, [0x399; 0x342]); (0x1FD7, [0x399; 0x308; 0x342]);
   (0x1FE2, [0x3A5; 0x308; 0x300]); (0x1FE3, [0x3A5; 0x308; 0x301]);
   (0x1FE4, [0x3A1; 0x313]); (0x1FE6, [0x3A5; 0x342]);
   (0x1FE7, [0x3A5; 0x308; 0x342]); (0x1FF2, [0x1FFA; 0x345]);
   (0x1FF4, [0x38F; 0x345]); (0x1FF6, [0x3A9; 0x342]);
   (0x1FF7, [0x3A9; 0x342; 0x345]); (0xFB00, [0x46; 0x66]);
   (0xFB01, [0x46; 0x69]); (0xFB02, [0x46; 0x6C]);
   (0xFB03, [0x46; 0x66; 0x69]); (0xFB04, [0x46; 0x66; 0x6C]);
   (0xFB05, [0x53; 0x74]); (0xFB06, [0x53; 0x74]); (0xFB13, [0x544; 0x576]);
   (0xFB14, [0x544; 0x565]); (0xFB15, [0x544; 0x56B]);
   (0xFB16, [0x54E; 0x576]); (0xFB17, [0x544; 0x56D])]%N.

Definition case_ignorable : list (N * N) :=
  [(0x27, 0x27); (0x2E, 0x2E); (0x3A, 0x3A); (0x5E, 0x5E); (0x60, 0x60);
   (0xA8, 0xA8); (0xAD, 0xAD); (0xAF, 0xAF); (0xB4, 0xB4); (0xB7, 0xB8);
   (0x2B0, 0x36F); (0x374, 0x375); (0x37A, 0x37A); (0x384, 0x385);
   (0x387, 0x387); (0x483, 0x489); (0x559, 0x559); (0x55F, 0x55F);
   (0x591, 0x5BD); (0x5BF, 0x5BF); (0x5C1, 0x5C2); (0x5C4, 0x5C5);
   (0x5C7, 0x5C7); (0x5F4, 0x5F4); (0x600, 0x605); (0x610, 0x61A);
   (0x61C, 0x61C); (0x640, 0x640); (0x64B, 0x65F); (0x670, 0x670);
   (0x6D6, 0x6DD); (0x6DF, 0x6E8); (0x6EA, 0x6ED); (0x70F, 0x70F);
   (0x711, 0x711); (0x730, 0x74A); (0x7A6, 0x7B0); (0x7EB, 0x7F5);
   (0x7FA, 0x7FA); (0x7FD, 0x7FD); (0x816, 0x82D); (0x859, 0x85B);
   (0x888, 0x888); (0x890, 0x891); (0x898, 0x89F); (0x8C9, 0x902);
   (0x93A, 0x93A); (0x93C, 0x93C); (0x941, 0x948); (0x94D, 0x94D);
   (0x951, 0x957); (0x962, 0x963); (0x971, 0x971); (0x981, 0x981);
   (0x9BC, 0x9BC); (0x9C1, 0x9C4); (0x9CD, 0x9CD); (0x9E2, 0x9E3);
   (0x9FE, 0x9FE); (0xA01, 0xA02); (0xA3C, 0xA3C); (0xA41, 0xA42);
   (0xA47, 0xA48); (0xA4B, 0xA4D); (0xA51, 0xA51); (0xA70, 0xA71);
   (0xA75, 0xA75); (0xA81, 0xA82); (0xABC, 0xABC); (0xAC1, 0xAC5);
   (0xAC7, 0xAC8); (0xACD, 0xACD); (0xAE2, 0xAE3); (0xAFA, 0xAFF);
   (0xB01, 0xB01); (0xB3C, 0xB3C); (0xB3F, 0xB3F); (0xB41, 0xB44);
   (0xB4D, 0xB4D); (0xB55, 0xB56); (0xB62, 0xB63); (0xB82, 0xB82);
   (0xBC0, 0xBC0); (0xBCD, 0xBCD); (0xC00, 0xC00); (0xC04, 0xC04);
   (0xC3C, 0xC3C); (0xC3E, 0xC40); (0xC46, 0xC48); (0xC4A, 0xC4D);
   (0xC55, 0xC56); (0xC62, 0xC63); (0xC81, 0xC81); (0xCBC, 0xCBC);
   (0xCBF, 0xCBF); (0xCC6, 0xCC6); (0xCCC, 0xCCD); (0xCE2, 0xCE3);
   (0xD00, 0xD01); (0xD3B, 0xD3C); (0xD41, 0xD44); (0xD4D, 0xD4D);
   (0xD62, 0xD63); (0xD81, 0xD81); (0xDCA, 0xDCA); (0xDD2, 0xDD4);
   (0xDD6, 0xDD6); (0xE31, 0xE31); (0xE34, 0xE3A); (0xE46, 0xE4E);
   (0xEB1, 0xEB1); (0xEB4, 0xEBC); (0xEC6, 0xEC6); (0xEC8, 0xECD);
   (0xF18, 0xF19); (0xF35, 0xF35); (0xF37, 0xF37); (0xF39, 0xF39);
   (0xF71, 0xF7E); (0xF80, 0xF84); (0xF86, 0xF87); (0xF8D, 0xF97);
   (0xF99, 0xFBC); (0xFC6, 0xFC6); (0x102D, 0x1030); (0x1032, 0x1037);
   (0x1039, 0x103A); (0x103D, 0x103E); (0x1058, 0x1059); (0x105E, 0x1060);
   (0x1071, 0x1074); (0x1082, 0x1082); (0x1085, 0x1086); (0x108D, 0x108D);
   (0x109D, 0x109D); (0x10FC, 0x10FC); (0x135D, 0x135F); (0x1712, 0x1714);
   (0x1732, 0x1733); (0x1752, 0x1753); (0x1772, 0x1773); (0x17B4, 0x17B5);
   (0x17B7, 0x17BD); (0x17C6, 0x17C6); (0x17C9, 0x17D3); (0x17D7, 0x17D7);
   (0x17DD, 0x17DD); (0x180B, 0x180F); (0x1843, 0x1843); (0x1885, 0x1886);
   (0x18A9, 0x18A9); (0x1920, 0x1922); (0x1927, 0x1928); (0x1932, 0x1932);
   (0x1939, 0x193B); (0x1A17, 0x1A18); (0x1A1B, 0x1A1B); (0x1A56, 0x1A56);
   (0x1A58, 0x1A5E); (0x1A60, 0x1A60); (0x1A62, 0x1A62); (0x1A65, 0x1A6C);
   (0x1A73, 0x1A7C); (0x1A7F, 0x1A7F); (0x1AA7, 0x1AA7); (0x1AB0, 0x1ACE);
   (0x1B00, 0x1B03); (0x1B34, 0x1B34); (0x1B36, 0x1B3A); (0x1B3C, 0x1B3C);
   (0x1B42, 0x1B42); (0x1B6B, 0x1B73); (0x1B80, 0x1B81); (0x1BA2, 0x1BA5);
   (0x1BA8, 0x1BA9); (0x1BAB, 0x1BAD); (0x1BE6, 0x1BE6); (0x1BE8, 0x1BE9);
   (0x1BED, 0x1BED); (0x1BEF, 0x1BF1); (0x1C2C, 0x1C33); (0x1C36, 0x1C37);
   (0x1C78, 0x1C7D); (0x1CD0, 0x1CD2); (0x1CD4, 0x1CE0); (0x1CE2, 0x1CE8);
   (0x1CED, 0x1CED); (0x1CF4, 0x1CF4); (0x1CF8, 0x1CF9); (0x1D2C, 0x1D6A);
   (0x1D78, 0x1D78); (0x1D9B, 0x1DFF); (0x1FBD, 0x1FBD); (0x1FBF, 0x1FC1);
   (0x1FCD, 0x1FCF); (0x1FDD, 0x1FDF); (0x1FED, 0x1FEF); (0x1FFD, 0x1FFE);
   (0x200B, 0x200F); (0x2018, 0x2019); (0x2024, 0x2024); (0x2027, 0x2027);
   (0x202A, 0x202E); (0x2060, 0x2064); (0x2066, 0x206F); (0x2071, 0x2071);
   (0x207F, 0x207F); (0x2090, 0x209C); (0x20D0, 0x20F0); (0x2C7C, 0x2C7D);
   (0x2CEF, 0x2CF1); (0x2D6F, 0x2D6F); (0x2D7F, 0x2D7F); (0x2DE0, 0x2DFF);
   (0x2E2F, 0x2E2F); (0x3005, 0x3005); (0x302A, 0x302D); (0x3031, 0x3035);
   (0x303B, 0x303B); (0x3099, 0x309E); (0x30FC, 0x30FE); (0xA015, 0xA015);
   (0xA4F8, 0xA4FD); (0xA60C, 0xA60C); (0xA66F, 0xA672); (0xA674, 0xA67D);
   (0xA67F, 0xA67F); (0xA69C, 0xA69F); (0xA6F0, 0xA6F1); (0xA700, 0xA721);
   (0xA770, 0xA770); (0xA788, 0xA78A); (0xA7F2, 0xA7F4); (0xA7F8, 0xA7F9);
   (0xA802, 0xA802); (0xA806, 0xA806); (0xA80B, 0xA80B); (0xA825, 0xA826);
   (0xA82C, 0xA82C); (0xA8C4, 0xA8C5); (0xA8E0, 0xA8F1); (0xA8FF, 0xA8FF);
   (0xA926, 0xA92D); (0xA947, 0xA951); (0xA980, 0xA982); (0xA9B3, 0xA9B3);
   (0xA9B6, 0xA9B9); (0xA9BC, 0xA9BD); (0xA9CF, 0xA9CF); (0xA9E5, 0xA9E6);
   (0xAA29, 0xAA2E); (0xAA31, 0xAA32); (0xAA35, 0xAA36); (0xAA43, 0xAA43);
   (0xAA4C, 0xAA4C); (0xAA70, 0xAA70); (0xAA7C, 0xAA7C); (0xAAB0, 0xAAB0);
   (0xAAB2, 0xAAB4); (0xAAB7, 0xAAB8); (0xAABE, 0xAABF); (0xAAC1, 0xAAC1);
   (0xAADD, 0xAADD); (0xAAEC, 0xAAED); (0xAAF3, 0xAAF4); (0xAAF6, 0xAAF6);
   (0xAB5B, 0xAB5F); (0xAB69, 0xAB6B); (0xABE5, 0xABE5); (0xABE8, 0xABE8);
   (0xABED, 0xABED); (0xFB1E, 0xFB1E); (0xFBB2, 0xFBC2); (0xFE00, 0xFE0F);
   (0xFE13, 0xFE13); (0xFE20, 0xFE2F); (0xFE52, 0xFE52); (0xFE55, 0xFE55);
   (0xFEFF, 0xFEFF); (0xFF07, 0xFF07); (0xFF0E, 0xFF0E); (0xFF1A, 0xFF1A);
   (0xFF3E, 0xFF3E); (0xFF40, 0xFF40); (0xFF70, 0xFF70); (0xFF9E, 0xFF9F);
   (0xFFE3, 0xFFE3); (0xFFF9, 0xFFFB); (0x101FD, 0x101FD); (0x102E0, 0x102E0);
   (0x10376, 0x1037A); (0x10780, 0x10785); (0x10787, 0x107B0);
   (0x107B2, 0x107BA); (0x10A01, 0x10A03); (0x10A05, 0x10A06);
   (0x10A0C, 0x10A0F); (0x10A38, 0x10A3A); (0x10A3F, 0x10A3F);
   (0x10AE5, 0x10AE6); (0x10D24, 0x10D27); (0x10EAB, 0x10EAC);
   (0x10F46, 0x10F50); (0x10F82, 0x10F85); (0x11001, 0x11001);
   (0x11038, 0x11046); (0x11070, 0x11070); (0x11073, 0x11074);
   (0x1107F, 0x11081); (0x110B3, 0x110B6); (0x110B9, 0x110BA);
   (0x110BD, 0x110BD); (0x110C2, 0x110C2); (0x110CD, 0x110CD);
   (0x11100, 0x11102); (0x11127, 0x1112B); (0x1112D, 0x11134);
   (0x11173, 0x11173); (0x11180, 0x11181); (0x111B6, 0x111BE);
   (0x111C9, 0x111CC); (0x111CF, 0x111CF); (0x1122F, 0x11231);
   (0x11234, 0x11234); (0x11236, 0x11237); (0x1123E, 0x1123E);
   (0x112DF, 0x112DF); (0x112E3, 0x112EA); (0x11300, 0x11301);
   (0x1133B, 0x1133C); (0x11340, 0x11340); (0x11366, 0x1136C);
   (0x11370, 0x11374); (0x11438, 0x1143F); (0x11442, 0x11444);
   (0x11446, 0x11446); (0x1145E, 0x1145E); (0x114B3, 0x114B8);
   (0x114BA, 0x114BA); (0x114BF, 0x114C0); (0x114C2, 0x114C3);
   (0x115B2, 0x115B5); (0x115BC, 0x115BD); (0x115BF, 0x115C0);
   (0x115DC, 0x115DD); (0x11633, 0x1163A); (0x1163D, 0x1163D);
   (0x1163F, 0x11640); (0x116AB, 0x116AB); (0x116AD, 0x116AD);
   (0x116B0, 0x116B5); (0x116B7, 0x116B7); (0x1171D, 0x1171F);
   (0x11722, 0x11725); (0x11727, 0x1172B); (0x1182F, 0x11837);
   (0x11839, 0x1183A); (0x1193B, 0x1193C); (0x1193E, 0x1193E);
   (0x11943, 0x11943); (0x119D4, 0x119D7); (0x119DA, 0x119DB);
   (0x119E0, 0x119E0); (0x11A01, 0x11A0A); (0x11A33, 0x11A38);
   (0x11A3B, 0x11A3E); (0x11A47, 0x11A47); (0x11A51, 0x11A56);
   (0x11A59, 0x11A5B); (0x11A8A, 0x11A96); (0x11A98, 0x11A99);
   (0x11C30, 0x11C36); (0x11C38, 0x11C3D); (0x11C3F, 0x11C3F);
   (0x11C92, 0x11CA7); (0x11CAA, 0x11CB0); (0x11CB2, 0x11CB3);
   (0x11CB5, 0x11CB6); (0x11D31, 0x11D36); (0x11D3A, 0x11D3A);
   (0x11D3C, 0x11D3D); (0x11D3F, 0x11D45); (0x11D47, 0x11D47);
   (0x11D90, 0x11D91); (0x11D95, 0x11D95); (0x11D97, 0x11D97);
   (0x11EF3, 0x11EF4); (0x13430, 0x13438); (0x16AF0, 0x16AF4);
   (0x16B30, 0x16B36); (0x16B40, 0x16B43); (0x16F4F, 0x16F4F);
   (0x16F8F, 0x16F9F); (0x16FE0, 0x16FE1); (0x16FE3, 0x16FE4);
   (0x1AFF0, 0x1AFF3); (0x1AFF5, 0x1AFFB); (0x1AFFD, 0x1AFFE);
   (0x1BC9D, 0x1BC9E); (0x1BCA0, 0x1BCA3); (0x1CF00, 0x1CF2D);
   (0x1CF30, 0x1CF46); (0x1D167, 0x1D169); (0x1D173, 0x1D182);
   (0x1D185, 0x1D18B); (0x1D1AA, 0x1D1AD); (0x1D242, 0x1D244);
   (0x1DA00, 0x1DA36); (0x1DA3B, 0x1DA6C); (0x1DA75, 0x1DA75);
   (0x1DA84, 0x1DA84); (0x1DA9B, 0x1DA9F); (0x1DAA1, 0x1DAAF);
   (0x1E000, 0x1E006); (0x1E008, 0x1E018); (0x1E01B, 0x1E021);
   (0x1E023, 0x1E024); (0x1E026, 0x1E02A); (0x1E130, 0x1E13D);
   (0x1E2AE, 0x1E2AE); (0x1E2EC, 0x1E2EF); (0x1E8D0, 0x1E8D6);
   (0x1E944, 0x1E94B); (0x1F3FB, 0x1F3FF); (0xE0001, 0xE0001);
   (0xE0020, 0xE007F); (0xE0100, 0xE01EF)]%N.

Definition cased_letters : list (N * N) :=
  [(0x41, 0x5A); (0x61, 0x7A); (0xAA, 0xAA); (0xB5, 0xB5); (0xBA, 0xBA);
   (0xC0, 0xD6); (0xD8, 0xF6); (0xF8, 0x1BA); (0x1BC, 0x1BF); (0x1C4, 0x293);
   (0x295, 0x2AF); (0x370, 0x373); (0x376, 0x377); (0x37B, 0x37D);
   (0x37F, 0x37F); (0x386, 0x386); (0x388, 0x38A); (0x38C, 0x38C);
   (0x38E, 0x3A1); (0x3A3, 0x3F5); (0x3F7, 0x481); (0x48A, 0x52F);
   (0x531, 0x556); (0x560, 0x588); (0x10A0, 0x10C5); (0x10C7, 0x10C7);
   (0x10CD, 0x10CD); (0x10D0, 0x10FA); (0x10FD, 0x10FF); (0x13A0, 0x13F5);
   (0x13F8, 0x13FD); (0x1C80, 0x1C88); (0x1C90, 0x1CBA); (0x1CBD, 0x1CBF);
   (0x1D00, 0x1D2B); (0x1D6B, 0x1D77); (0x1D79, 0x1D9A); (0x1E00, 0x1F15);
   (0x1F18, 0x1F1D); (0x1F20, 0x1F45); (0x1F48, 0x1F4D); (0x1F50, 0x1F57);
   (0x1F59, 0x1F59); (0x1F5B, 0x1F5B); (0x1F5D, 0x1F5D); (0x1F5F, 0x1F7D);
   (0x1F80, 0x1FB4); (0x1FB6, 0x1FBC); (0x1FBE, 0x1FBE); (0x1FC2, 0x1FC4);
   (0x1FC6, 0x1FCC); (0x1FD0, 0x1FD3); (0x1FD6, 0x1FDB); (0x1FE0, 0x1FEC);
   (0x1FF2, 0x1FF4); (0x1FF6, 0x1FFC); (0x2102, 0x2102); (0x2107, 0x2107);
   (0x210A, 0x2113); (0x2115, 0x2115); (0x2119, 0x211D); (0x2124, 0x2124);
   (0x2126, 0x2126); (0x2128, 0x2128); (0x212A, 0x212D); (0x212F, 0x2134);
   (0x2139, 0x2139); (0x213C, 0x213F); (0x2145, 0x2149); (0x214E, 0x214E);
   (0x2160, 0x217F); (0x2183, 0x2184); (0x24B6, 0x24E9); (0x2C00, 0x2C7B);
   (0x2C7E, 0x2CE4); (0x2CEB, 0x2CEE); (0x2CF2, 0x2CF3); (0x2D00, 0x2D25);
   (0x2D27, 0x2D27); (0x2D2D, 0x2D2D); (0xA640, 0xA66D); (0xA680, 0xA69B);
   (0xA722, 0xA76F); (0xA771, 0xA787); (0xA78B, 0xA78E); (0xA790, 0xA7CA);
   (0xA7D0, 0xA7D1); (0xA7D3, 0xA7D3); (0xA7D5, 0xA7D9); (0xA7F5, 0xA7F6);
   (0xA7FA, 0xA7FA); (0xAB30, 0xAB5A); (0xAB60, 0xAB68); (0xAB70, 0xABBF);
   (0xFB00, 0xFB06); (0xFB13, 0xFB17); (0xFF21, 0xFF3A); (0xFF41, 0xFF5A);
   (0x10400, 0x1044F); (0x104B0, 0x104D3); (0x104D8, 0x104FB);
   (0x10570, 0x1057A); (0x1057C, 0x1058A); (0x1058C, 0x10592);
   (0x10594, 0x10595); (0x10597, 0x105A1); (0x105A3, 0x105B1);
   (0x105B3, 0x105B9); (0x105BB, 0x105BC); (0x10C80, 0x10CB2);
   (0x10CC0, 0x10CF2); (0x118A0, 0x118DF); (0x16E40, 0x16E7F);
   (0x1D400, 0x1D454); (0x1D456, 0x1D49C); (0x1D49E, 0x1D49F);
   (0x1D4A2, 0x1D4A2); (0x1D4A5, 0x1D4A6); (0x1D4A9, 0x1D4AC);
   (0x1D4AE, 0x1D4B9); (0x1D4BB, 0x1D4BB); (0x1D4BD, 0x1D4C3);
   (0x1D4C5, 0x1D505); (0x1D507, 0x1D50A); (0x1D50D, 0x1D514);
   (0x1D516, 0x1D51C); (0x1D51E, 0x1D539); (0x1D53B, 0x1D53E);
   (0x1D540, 0x1D544); (0x1D546, 0x1D546); (0x1D54A, 0x1D550);
   (0x1D552, 0x1D6A5); (0x1D6A8, 0x1D6C0); (0x1D6C2, 0x1D6DA);
   (0x1D6DC, 0x1D6FA); (0x1D6FC, 0x1D714); (0x1D716, 0x1D734);
   (0x1D736, 0x1D74E); (0x1D750, 0x1D76E); (0x1D770, 0x1D788);
   (0x1D78A, 0x1D7A8); (0x1D7AA, 0x1D7C2); (0x1D7C4, 0x1D7CB);
   (0x1DF00, 0x1DF09); (0x1DF0B, 0x1DF1E); (0x1E900, 0x1E943);
   (0x1F130, 0x1F149); (0x1F150, 0x1F169); (0x1F170, 0x1F189)]%N.

Definition decimal_digits : list N :=
  [0x30; 0x660; 0x6F0; 0x7C0; 0x966; 0x9E6; 0xA66; 0xAE6; 0xB66; 0xBE6; 0xC66;
   0xCE6; 0xD66; 0xDE6; 0xE50; 0xED0; 0xF20; 0x1040; 0x1090; 0x17E0; 0x1810;
   0x1946; 0x19D0; 0x1A80; 0x1A90; 0x1B50; 0x1BB0; 0x1C40; 0x1C50; 0xA620;
   0xA8D0; 0xA900; 0xA9D0; 0xA9F0; 0xAA50; 0xABF0; 0xFF10; 0x104A0; 0x10D30;
   0x11066; 0x110F0; 0x11136; 0x111D0; 0x112F0; 0x11450; 0x114D0; 0x11650;
   0x116C0; 0x11730; 0x118E0; 0x11950; 0x11C50; 0x11D50; 0x11DA0; 0x16A60;
   0x16AC0; 0x16B50; 0x1D7CE; 0x1D7D8; 0x1D7E2; 0x1D7EC; 0x1D7F6; 0x1E140;
   0x1E2F0; 0x1E950; 0x1FBF0]%N.

Definition in_ranges (t : list (N * N)) (c : N) : bool :=
  existsb (fun r => (r.1 <=? c) && (c <=? r.2))%N t.

Definition shift (t : list (N * N * N * Z)) (c : N) : N :=
  match List.find (fun r => let '(lo, hi, step, _) := r in
                      (lo <=? c) && (c <=? hi) && ((c - lo) mod step =? 0))%N t with
  | Some (_, _, _, d) => Z.to_N (Z.of_N c + d)
  | None => c
  end.

Definition special (t : list (N * list N)) (c : N) : option (list N) :=
  snd <$> List.find (fun r => (r.1 =? c)%N) t.

(** The full lower-case and title-case mappings of one code point. *)
Definition lower_cp (c : N) : list N :=
  default [shift lower_ranges c] (special lower_special c).

Definition title_cp (c : N) : list N :=
  default [shift title_ranges c] (special title_special c).

Definition is_space (c : N) : bool := bool_decide (c ∈ whitespace).

Fixpoint skip_ignorable (l : list N) : list N :=
  match l with
  | c :: r => if in_ranges case_ignorable c then skip_ignorable r else l
  | [] => []
  end.

Definition starts_cased (l : list N) : bool :=
  match skip_ignorable l with
  | c :: _ => in_ranges cased_letters c
  | [] => false
  end.

(** The lower case of a capital sigma: final when a cased letter precedes
    it and none follows, case-ignorable code points set aside. [before]
    is the text that precedes, nearest code point first. *)
Definition lower_sigma (before after : list N) : N :=
  if starts_cased before && negb (starts_cased after) then 0x3C2%N else 0x3C3%N.

Fixpoint lower_from (before l : list N) : list N :=
  match l with
  | [] => []
  | c :: r =>
      (if (c =? 0x3A3)%N then [lower_sigma before r] else lower_cp c)
        ++ lower_from (c :: before) r
  end.

Definition lower (l : list N) : list N := lower_from [] l.

Definition capitalize (l : list N) : list N :=
  match l with
  | [] => []
  | c :: r => title_cp c ++ lower_from [c] r
  end.

Fixpoint lstrip (l : list N) : list N :=
  match l with
  | c :: r => if is_space c then lstrip r else l
  | [] => []
  end.

Definition strip (l : list N) : list N := rev (lstrip (rev (lstrip l))).

(** UTF-8. A byte that starts no well-formed sequence is kept apart as the
    code point [0xDC00 + byte], which [encode] turns back into the byte. *)
Definition byte (c : ascii) : N := N_of_ascii c.

Definition cont (c : ascii) : bool := ((0x80 <=? byte c) && (byte c <=? 0xBF))%N.

Definition low6 (c : ascii) : N := (byte c - 0x80)%N.

Fixpoint decode (s : string) : list N :=
  match s with
  | EmptyString => []
  | String b0 r =>
      let n := byte b0 in
      if (n <? 0x80)%N then n :: decode r
      else
        match r with
        | String b1 r1 =>
            if ((0xC2 <=? n) && (n <=? 0xDF))%N && cont b1
            then ((n - 0xC0) * 64 + low6 b1)%N :: decode r1
            else
              match r1 with
              | String b2 r2 =>
                  if ((0xE0 <=? n) && (n <=? 0xEF))%N && cont b1 && cont b2
                  then ((n - 0xE0) * 4096 + low6 b1 * 64 + low6 b2)%N :: decode r2
                  else
                    match r2 with
                    | String b3 r3 =>
                        if ((0xF0 <=? n) && (n <=? 0xF4))%N && cont b1 && cont b2 && cont b3
                        then ((n - 0xF0) * 262144 + low6 b1 * 4096
                              + low6 b2 * 64 + low6 b3)%N :: decode r3
                        else (0xDC00 + n)%N :: decode r
                    | EmptyString => (0xDC00 + n)%N :: decode r
                    end
              | EmptyString => (0xDC00 + n)%N :: decode r
              end
        | EmptyString => (0xDC00 + n)%N :: decode r
        end
  end.

Definition chr (n : N) : ascii := ascii_of_N n.

Definition encode_cp (c : N) : list ascii :=
  if (c <? 0x80)%N then [chr c]
  else if (c <? 0x800)%N then [chr (0xC0 + c / 64); chr (0x80 + c mod 64)]
  else if ((0xDC80 <=? c) && (c <=? 0xDCFF))%N then [chr (c - 0xDC00)]
  else if (c <? 0x10000)%N
  then [chr (0xE0 + c / 4096); chr (0x80 + (c / 64) mod 64); chr (0x80 + c mod 64)]
  else [chr (0xF0 + c / 262144); chr (0x80 + (c / 4096) mod 64);
        chr (0x80 + (c / 64) mod 64); chr (0x80 + c mod 64)].

Definition encode (l : list N) : string :=
  string_of_list_ascii (l ≫= encode_cp).

(** The value of a decimal digit of any script. *)
Definition digit_value (c : N) : option N :=
  (fun lo => c - lo)%N <$> List.find (fun lo => (lo <=? c) && (c <=? lo + 9))%N decimal_digits.

End Unicode.

(** ** An executable runtime

    [float(s)] follows CPython: code points above ASCII are replaced (a
    space for whitespace, the ASCII digit for a decimal digit), blanks are
    stripped, single underscores between digits are dropped, and the
    literal is read with correct rounding (the quotient by a power of ten
    goes through the same core as [SFdiv]). [pd.to_numeric] on a string
    follows the pandas tokenizer: at most 17 digits are accumulated in a
    double, which is then scaled by a power of ten. Floats print as the
    shortest correctly rounded decimal that reads back, laid out as [repr]
    does; [round] is numpy's scale, [rint], unscale; the sum of [mean] adds
    from left to right. *)

Module Runtime.

Definition digit_val (c : ascii) : option Z :=
  let n := N_of_ascii c in
  if ((48 <=? n)%N && (n <=? 57)%N) then Some (Z.of_N (n - 48)) else None.

(** C's [isspace] on ASCII. *)
Definition c_isspace (c : ascii) : bool :=
  let n := N_of_ascii c in ((9 <=? n) && (n <=? 13))%N || (n =? 32)%N.

Definition ascii_lower (c : ascii) : ascii :=
  let n := N_of_ascii c in
  if ((65 <=? n) && (n <=? 90))%N then ascii_of_N (n + 32) else c.

(** [s.strip()], [s.lower()], [s.capitalize()] *)
Definition strip (s : string) : string :=
  Unicode.encode (Unicode.strip (Unicode.decode s)).
Definition lower (s : string) : string :=
  Unicode.encode (Unicode.lower (Unicode.decode s)).
Definition capitalize (s : string) : string :=
  Unicode.encode (Unicode.capitalize (Unicode.decode s)).

(** Leading digits of [s]: their value after [acc], how many, and the rest. *)
Fixpoint read_digits (s : string) (acc : Z) (cnt : nat) : Z * nat * string :=
  match s with
  | EmptyString => (acc, cnt, s)
  | String c r =>
      match digit_val c with
      | Some d => read_digits r (10 * acc + d)%Z (S cnt)
      | None => (acc, cnt, s)
      end
  end.

Definition read_sign (s : string) : bool * string :=
  match s with
  | String "-" r => (true, r)
  | String "+" r => (false, r)
  | _ => (false, s)
  end.

(** The double nearest to [m * 10^e], for [m > 0]. *)
Definition dec_to_float (neg : bool) (m e : Z) : float :=
  match m with
  | Zpos p =>
      if (0 <=? e)%Z
      then binary_normalize PyFloat.prec PyFloat.emax (cond_Zopp neg (m * 10 ^ e)) 0 neg
      else
        let '(mz, ez, lz) :=
          SFdiv_core_binary PyFloat.prec PyFloat.emax m 0 (10 ^ (- e)) 0 in
        binary_round_aux PyFloat.prec PyFloat.emax neg mz ez lz
  | _ => S754_zero neg
  end.

(** An optional exponent part ["e[+-]ddd"] that ends the string. *)
Definition read_exponent (s : string) : option Z :=
  match s with
  | EmptyString => Some 0%Z
  | String c r =>
      if Ascii.eqb c "e" || Ascii.eqb c "E" then
        let '(neg, r) := read_sign r in
        let '(v, n, rest) := read_digits r 0 0 in
        if bool_decide (n <> 0) && bool_decide (rest = EmptyString)
        then Some (cond_Zopp neg v) else None
      else None
  end.

(** A float literal without blanks or underscores. *)
Definition parse_literal (s : string) : option float :=
  let '(neg, r) := read_sign s in
  let w := PyStr.map_str ascii_lower r in
  if PyStr.str_in w ["inf"; "infinity"] then Some (S754_infinity neg)
  else if bool_decide (w = "nan") then Some S754_nan
  else
    let '(ip, n1, r1) := read_digits r 0 0 in
    let '(m, n2, r2) :=
      match r1 with
      | String "." r' => read_digits r' ip 0
      | _ => (ip, 0, r1)
      end in
    if bool_decide (n1 + n2 = 0) then None
    else e ← read_exponent r2; Some (dec_to_float neg m (e - Z.of_nat n2)).

(** The ASCII text CPython parses: a code point above ASCII becomes a space
    when it is whitespace, its digit when it is a decimal digit, and ["?"]
    otherwise. *)
Definition to_ascii (c : N) : ascii :=
  if (c <? 127)%N then ascii_of_N c
  else if Unicode.is_space c then " "%char
  else match Unicode.digit_value c with
       | Some d => ascii_of_N (48 + d)
       | None => "?"%char
       end.

(** Underscores are dropped when each stands between two digits; [prev] is
    the character before. *)
Fixpoint drop_underscores (prev : ascii) (s : string) : option string :=
  match s with
  | EmptyString => if Ascii.eqb prev "_" then None else Some EmptyString
  | String c r =>
      if Ascii.eqb c "_"
      then (if bool_decide (is_Some (digit_val prev)) then drop_underscores c r else None)
      else if Ascii.eqb prev "_" && negb (bool_decide (is_Some (digit_val c))) then None
      else String c <$> drop_underscores c r
  end.

(** [float(s)] *)
Definition parse_float (s : string) : option float :=
  let t := string_of_list_ascii (to_ascii <$> Unicode.decode s) in
  let t := PyStr.rstrip_where c_isspace (PyStr.lstrip_where c_isspace t) in
  u ← drop_underscores "000"%char t; parse_literal u.

(** The pandas tokenizer ([precise_xstrtod]). *)
Definition ten : float := PyFloat.of_Z 10.

Definition pow10 (k : Z) : float := dec_to_float false 1 k.

(** The digits before the point: seventeen at most are accumulated, each
    further one raises the exponent. *)
Fixpoint xs_digits (s : string) (number : float) (nd : nat) (ex : Z)
    : float * nat * Z * string :=
  match s with
  | EmptyString => (number, nd, ex, s)
  | String c r =>
      match digit_val c with
      | Some d =>
          if nd <? 17
          then xs_digits r (PyFloat.add (PyFloat.mul number ten) (PyFloat.of_Z d)) (S nd) ex
          else xs_digits r number nd (ex + 1)
      | None => (number, nd, ex, s)
      end
  end.

(** The digits after the point: the ones past the seventeenth are dropped. *)
Fixpoint xs_decimals (s : string) (number : float) (nd : nat) (ndec : Z)
    : float * nat * Z * string :=
  match s with
  | EmptyString => (number, nd, ndec, s)
  | String c r =>
      match digit_val c with
      | Some d =>
          if nd <? 17
          then xs_decimals r (PyFloat.add (PyFloat.mul number ten) (PyFloat.of_Z d))
                 (S nd) (ndec + 1)
          else xs_decimals r number nd ndec
      | None => (number, nd, ndec, s)
      end
  end.

Definition xs_scale (number : float) (ex : Z) : option float :=
  if (308 <? ex)%Z then None
  else
    let r :=
      if (0 <? ex)%Z then PyFloat.mul number (pow10 ex)
      else if (ex <? -308)%Z then
        if (ex <? -616)%Z then S754_zero false
        else PyFloat.div (PyFloat.div number (pow10 (-308 - ex))) (pow10 308)
      else PyFloat.div number (pow10 (- ex)) in
    match r with
    | S754_infinity _ => None
    | _ => Some r
    end.

(** One string cell of [pd.to_numeric]: the double, and the integer when the
    text has neither point nor exponent. *)
Definition xstrtod (s : string) : option parsed :=
  let s := PyStr.lstrip_where c_isspace s in
  let '(neg, r) := read_sign s in
  let '(number, nd, ex, r1) := xs_digits r (S754_zero false) 0 0 in
  let '(number, nd, ex, r2, is_int) :=
    match r1 with
    | String "." r' =>
        let '(number, nd, ndec, r2) := xs_decimals r' number nd 0 in
        (number, nd, (ex - ndec)%Z, r2, false)
    | _ => (number, nd, ex, r1, true)
    end in
  if bool_decide (nd = 0) then None
  else
    let number := if neg then SFopp number else number in
    let '(ex, r3, is_int) :=
      match r2 with
      | String c r' =>
          if Ascii.eqb (ascii_lower c) "e" then
            let '(eneg, r') := read_sign r' in
            let '(n, cnt, r3) := read_digits r' 0 0 in
            if bool_decide (cnt = 0) then (ex, r2, false)
            else ((if eneg then ex - n else ex + n)%Z, r3, false)
          else (ex, r2, is_int)
      | EmptyString => (ex, r2, is_int)
      end in
    if bool_decide (PyStr.lstrip_where c_isspace r3 = EmptyString) then
      f ← xs_scale number ex;
      Some (Parsed f (if is_int
                      then Some (cond_Zopp neg (read_digits r 0 0).1.1)
                      else None))
    else None.

(** The spellings of infinity and NaN that [pd.to_numeric] accepts when the
    tokenizer fails. *)
Definition special_float (s : string) : option float :=
  let w := PyStr.map_str ascii_lower s in
  if PyStr.str_in w ["inf"; "+inf"; "infinity"; "+infinity"] then Some (S754_infinity false)
  else if PyStr.str_in w ["-inf"; "-infinity"] then Some (S754_infinity true)
  else if bool_decide (w = "nan") then Some S754_nan
  else None.

Definition parse_numeric (s : string) : option parsed :=
  match xstrtod s with
  | Some p => Some p
  | None => (fun f => Parsed f None) <$> special_float s
  end.

(** [q] rounded half to even, for the non-negative fraction [a / b]. *)
Definition div_half_even (a b : Z) : Z :=
  let q := (a / b)%Z in
  let r := (a mod b)%Z in
  match (2 * r ?= b)%Z with
  | Lt => q
  | Gt => (q + 1)%Z
  | Eq => if Z.even q then q else (q + 1)%Z
  end.

(** The largest [d] from [d0] on with [10^d <= a / b], searched upward. *)
Fixpoint dec_exponent (fuel : nat) (a b d : Z) : Z :=
  match fuel with
  | O => d
  | S k =>
      let d' := (d + 1)%Z in
      let ok := if (0 <=? d')%Z then (b * 10 ^ d' <=? a)%Z else (b <=? a * 10 ^ (- d'))%Z in
      if ok then dec_exponent k a b d' else d
  end.

(** [a / b] rounded to [p] significant digits: the digits and the exponent
    of the last one. *)
Definition round_digits (a b d : Z) (p : Z) : Z * Z :=
  let sh := (p - 1 - d)%Z in
  let n := if (0 <=? sh)%Z then div_half_even (a * 10 ^ sh) b
           else div_half_even a (b * 10 ^ (- sh)) in
  if (10 ^ p <=? n)%Z then ((n / 10)%Z, (d + 1 - (p - 1))%Z) else (n, (d - (p - 1))%Z).

Fixpoint shortest_digits (fuel : nat) (f : float) (a b d : Z) (p : Z) : Z * Z :=
  let '(n, e10) := round_digits a b d p in
  match fuel with
  | O => (n, e10)
  | S k => if bool_decide (dec_to_float false n e10 = f) then (n, e10)
           else shortest_digits k f a b d (p + 1)
  end.

Definition zeros (n : Z) : string :=
  String.concat "" (replicate (Z.to_nat n) "0").

Definition take_str (n : Z) (s : string) : string := String.substring 0 (Z.to_nat n) s.
Definition drop_str (n : Z) (s : string) : string :=
  String.substring (Z.to_nat n) (String.length s - Z.to_nat n) s.

(** [repr]'s layout of the digit string [ds] with the decimal point after
    [decpt] digits. *)
Definition layout (ds : string) (decpt : Z) : string :=
  let len := Z.of_nat (String.length ds) in
  if ((-4 <? decpt) && (decpt <=? 16))%Z then
    if (decpt <=? 0)%Z then "0." +:+ zeros (- decpt) +:+ ds
    else if (len <=? decpt)%Z then ds +:+ zeros (decpt - len) +:+ ".0"
    else take_str decpt ds +:+ "." +:+ drop_str decpt ds
  else
    let ex := (decpt - 1)%Z in
    let mant := if (len <=? 1)%Z then ds else take_str 1 ds +:+ "." +:+ drop_str 1 ds in
    let exs := pretty (Z.abs ex) in
    mant +:+ "e" +:+ (if (ex <? 0)%Z then "-" else "+")
         +:+ (if (Z.abs ex <? 10)%Z then "0" else "") +:+ exs.

(** [str(f)] *)
Definition print_float (f : float) : string :=
  match f with
  | S754_nan => "nan"
  | S754_infinity s => if s then "-inf" else "inf"
  | S754_zero s => if s then "-0.0" else "0.0"
  | S754_finite s m e =>
      let a := if (0 <=? e)%Z then Z.shiftl (Zpos m) e else Zpos m in
      let b := if (0 <=? e)%Z then 1%Z else Z.shiftl 1 (- e) in
      let d := dec_exponent 800 a b (-400) in
      let '(n, e10) := shortest_digits 17 (S754_finite false m e) a b d 1 in
      let ds := pretty n in
      (if s then "-" else "") +:+ layout ds (e10 + Z.of_nat (String.length ds))
  end.

(** [round(x, n)] as numpy computes it. *)
Definition round_ndigits (x : float) (n : Z) : float :=
  let scale := PyFloat.of_Z (10 ^ n) in
  PyFloat.div (PyFloat.rint (PyFloat.mul x scale)) scale.

Definition sum_floats (l : list float) : float :=
  foldl PyFloat.add (S754_zero false) l.

End Runtime.

#[global] Instance py_builtins : Builtins := {|
  str_strip := Runtime.strip;
  str_lower := Runtime.lower;
  str_capitalize := Runtime.capitalize;
  py_float := Runtime.parse_float;
  to_numeric_str := Runtime.parse_numeric;
  str_float := Runtime.print_float;
  py_round := Runtime.round_ndigits;
  float_sum := Runtime.sum_floats;
|}.

(** ** Sample record sets *)

Module Samples.

(** [70.0], [29.85] and [350.0] as doubles. *)
Definition f70 : float := PyFloat.of_Z 70.
Definition f350 : float := PyFloat.of_Z 350.
Definition f29_85 : float := S754_finite false 8402028054813082 (-48).

(** Four raw rows: a duplicated key, corrupted amounts, an empty total, a
    negative and an unparseable tenure, a senior flag in three encodings. *)
Definition raw : frame :=
  mk_frame 4
    [("customerID", ColObj [VStr "C1"; VStr "C2"; VStr "C1"; VStr "C3"]);
     ("gender", ColObj [VStr " female"; VStr "MALE"; VStr "Female"; VNone]);
     ("SeniorCitizen", ColObj [VStr "Yes"; VInt 1; VStr "0"; VStr "1"]);
     ("Partner", ColObj [VStr "yes"; VBool false; VStr "No"; VStr " maybe "]);
     ("Dependents", ColObj [VStr "No"; VStr "No"; VStr "Yes"; VNone]);
     ("tenure", ColInt [5; 12; 7; -3]%Z);
     ("PhoneService", ColObj [VStr "Yes"; VStr "TRUE"; VStr "0"; VInt 1]);
     ("Contract", ColObj [VStr "Month-to-month"; VStr "One year"; VStr "Two year"; VNone]);
     ("PaperlessBilling", ColBool [true; false; true; true]);
     ("MonthlyCharges", ColObj [VFloat f70; VStr "$29.85$29.85"; VInt 20; VStr "n/a"]);
     ("TotalCharges", ColObj [VStr ""; VStr "$29.85$29.85$29.85"; VStr " "; VNone]);
     ("Churn", ColObj [VStr "Yes"; VStr "no"; VStr "Yes"; VStr "maybe"])].

(** What [clean_data] makes of [raw]: the second ["C1"] row is gone, the
    empty total of the first row is [70.0 * 5], the amounts that cannot be
    parsed are NaN. *)
Definition raw_cleaned : frame :=
  Frame [0; 1; 3]
    (list_to_map
       [("customerID", ColObj [VStr "C1"; VStr "C2"; VStr "C3"]);
        ("gender", ColObj [VStr "Female"; VStr "Male"; VNone]);
        ("SeniorCitizen", ColInt [1; 0; 1]%Z);
        ("Partner", ColObj [VStr "Yes"; VStr "No"; VStr "Maybe"]);
        ("Dependents", ColObj [VStr "No"; VStr "No"; VStr "No"]);
        ("tenure", ColInt [5; 12; -3]%Z);
        ("PhoneService", ColObj [VStr "Yes"; VStr "Yes"; VStr "Yes"]);
        ("Contract", ColObj [VStr "Month-to-month"; VStr "One year"; VNone]);
        ("PaperlessBilling", ColObj [VStr "Yes"; VStr "No"; VStr "Yes"]);
        ("MonthlyCharges", ColFloat [f70; f29_85; PyFloat.nan]);
        ("TotalCharges", ColFloat [f350; f29_85; PyFloat.nan]);
        ("Churn", ColObj [VStr "Yes"; VStr "No"; VStr "Maybe"])]).

(** One customer whose gender is the single letter U+0149, and what one
    and two runs of [clean_data] make of it: U+02BC followed by ["N"], then
    U+02BC followed by ["n"]. *)
Definition u0149 : string := Unicode.encode [0x149%N].
Definition u02BC_N : string := Unicode.encode [0x2BC%N; 0x4E%N].
Definition u02BC_n : string := Unicode.encode [0x2BC%N; 0x6E%N].

Definition odd_gender (g : string) : frame :=
  mk_frame 1
    [("customerID", ColObj [VStr "C1"]);
     ("gender", ColObj [VStr g]);
     ("SeniorCitizen", ColInt [0]%Z);
     ("tenure", ColInt [5]%Z);
     ("MonthlyCharges", ColFloat [f70]);
     ("TotalCharges", ColFloat [f350])].

(** Tenure cells of every kind in one object column. *)
Definition dirty_tenure : frame :=
  mk_frame 5
    [("customerID", ColObj [VStr "C1"; VStr "C2"; VStr "C3"; VStr "C4"; VStr "C5"]);
     ("SeniorCitizen", ColInt [0; 0; 0; 0; 0]%Z);
     ("tenure", ColObj [VStr "5"; VStr "abc"; VNone;
                        VFloat (S754_finite false 6079859496950170 (-51)); VInt (-3)]);
     ("MonthlyCharges", ColFloat [f70; f70; f70; f70; f70]);
     ("TotalCharges", ColFloat [f350; f350; f350; f350; f350])].

Definition dirty_tenure_cleaned : frame :=
  mk_frame 5
    [("customerID", ColObj [VStr "C1"; VStr "C2"; VStr "C3"; VStr "C4"; VStr "C5"]);
     ("SeniorCitizen", ColInt [0; 0; 0; 0; 0]%Z);
     ("tenure", ColInt [5; 0; 0; 2; -3]%Z);
     ("MonthlyCharges", ColFloat [f70; f70; f70; f70; f70]);
     ("TotalCharges", ColFloat [f350; f350; f350; f350; f350])].

(** One clean row with a negative tenure. *)
Definition negative_tenure : frame :=
  mk_frame 1
    [("customerID", ColObj [VStr "C1"]);
     ("SeniorCitizen", ColInt [0]%Z);
     ("tenure", ColInt [-3]%Z);
     ("MonthlyCharges", ColFloat [f70]);
     ("TotalCharges", ColFloat [f350])].

(** Two rows whose senior flag is the string ["Yes"] and the integer [1]. *)
Definition mixed_senior : frame :=
  mk_frame 2
    [("customerID", ColObj [VStr "C1"; VStr "C2"]);
     ("SeniorCitizen", ColObj [VStr "Yes"; VInt 1]);
     ("tenure", ColInt [5; 5]%Z);
     ("MonthlyCharges", ColFloat [f70; f70]);
     ("TotalCharges", ColFloat [f350; f350])].

Definition mixed_senior_cleaned : frame :=
  mk_frame 2
    [("customerID", ColObj [VStr "C1"; VStr "C2"]);
     ("SeniorCitizen", ColInt [1; 0]%Z);
     ("tenure", ColInt [5; 5]%Z);
     ("MonthlyCharges", ColFloat [f70; f70]);
     ("TotalCharges", ColFloat [f350; f350])].

(** One cleaned customer with a tenure of 101 months. *)
Definition long_tenure : frame :=
  mk_frame 1
    [("customerID", ColObj [VStr "C1"]);
     ("tenure", ColInt [101]%Z);
     ("MonthlyCharges", ColFloat [f70]);
     ("TotalCharges", ColFloat [f350]);
     ("Contract", ColObj [VStr "Two year"]);
     ("InternetService", ColObj [VStr "DSL"])].

(** One cleaned customer whose record set already has a column named
    [total_services]. *)
Definition with_total_services : frame :=
  mk_frame 1
    [("customerID", ColObj [VStr "C1"]);
     ("tenure", ColInt [5]%Z);
     ("MonthlyCharges", ColFloat [f70]);
     ("TotalCharges", ColFloat [f350]);
     ("Contract", ColObj [VStr "Two year"]);
     ("InternetService", ColObj [VStr "DSL"]);
     ("total_services", ColInt [7]%Z)].

End Samples.

(** * Facts about the Python and pandas layer *)

Module PyFloatFacts.
Import PyFloat.

Lemma is_nan_true f : is_nan f = true -> f = nan.
Proof. by destruct f. Qed.

Lemma mul_nan_l f : mul nan f = nan.
Proof. by destruct f. Qed.

Lemma trunc_of_Z_small :
  trunc (of_Z 5) = Some 5%Z /\ trunc (of_Z (-3)) = Some (-3)%Z /\ trunc (of_Z 0) = Some 0%Z.
Proof. by vm_compute. Qed.

End PyFloatFacts.

Module PyStrFacts.
Import PyStr.

Lemma str_in_correct s l : str_in s l = true <-> s ∈ l.
Proof.
  unfold str_in. rewrite existsb_exists. split.
  - intros (x & Hx & E). apply String.eqb_eq in E. subst. by apply list_elem_of_In.
  - intros H. exists s. split; [by apply list_elem_of_In | apply String.eqb_refl].
Qed.

End PyStrFacts.

Section ColumnFacts.

Lemma col_values_length c : length (col_values c) = col_len c.
Proof. destruct c; simpl; by rewrite ?length_fmap. Qed.

Lemma mask_filter_all_true {A} (l : list A) keep :
  length keep = length l -> Forall (eq true) keep -> mask_filter keep l = l.
Proof.
  revert l. induction keep as [|k ks IH]; intros [|x xs] Hl Hk; simpl in *; try done.
  inversion Hk; subst. f_equal. apply IH; [lia | done].
Qed.

Lemma mask_filter_fmap {A B} (f : A -> B) keep (l : list A) :
  mask_filter keep (f <$> l) = f <$> mask_filter keep l.
Proof.
  revert l. induction keep as [|[] ks IH]; intros [|x xs]; simpl; try done.
  by rewrite IH.
Qed.

Lemma mask_filter_length_le {A} keep (l : list A) :
  length (mask_filter keep l) <= length l.
Proof.
  revert l. induction keep as [|[] ks IH]; intros [|x xs]; simpl; try lia.
  - specialize (IH xs). lia.
  - specialize (IH xs). lia.
Qed.

Lemma col_values_filter keep c :
  col_values (col_filter keep c) = mask_filter keep (col_values c).
Proof. destruct c; simpl; by rewrite ?mask_filter_fmap. Qed.

Lemma get_set_eq c col df : get_col c (set_col c col df) = Some col.
Proof. apply lookup_insert_eq. Qed.

Lemma get_set_ne c c' col df :
  c <> c' -> get_col c' (set_col c col df) = get_col c' df.
Proof. intros. by apply lookup_insert_ne. Qed.

Lemma set_col_id c col df : get_col c df = Some col -> set_col c col df = df.
Proof. destruct df as [i m]. unfold get_col, set_col. simpl. intros H. by rewrite insert_id. Qed.

Lemma get_filter c keep df :
  get_col c (frame_filter keep df) = col_filter keep <$> get_col c df.
Proof. apply lookup_fmap. Qed.

End ColumnFacts.


(** * The cleaning engine: step lemmas *)

Section MaskFacts.

Lemma mask_filter_nil_r {A} keep : mask_filter keep (@nil A) = [].
Proof. by destruct keep as [|[] ?]. Qed.

Lemma mask_filter_replicate_true {A} n (l : list A) :
  length l <= n -> mask_filter (replicate n true) l = l.
Proof.
  revert l. induction n as [|n IH]; intros [|x xs] Hl; simpl in *; try done; try lia.
  f_equal. apply IH. lia.
Qed.

Lemma mask_filter_zip_with {A C D} (f : A -> C -> D) keep l k :
  mask_filter keep (zip_with f l k) = zip_with f (mask_filter keep l) (mask_filter keep k).
Proof.
  revert l k. induction keep as [|b ks IH]; intros [|x xs] [|y ys]; simpl; try done.
  - by destruct b.
  - by destruct b.
  - destruct b; simpl; [done|]. by destruct (mask_filter ks xs).
  - destruct b; simpl; by rewrite IH.
Qed.

Lemma mask_filter_zip {A C} keep (l : list A) (k : list C) :
  mask_filter keep (zip l k) = zip (mask_filter keep l) (mask_filter keep k).
Proof. apply mask_filter_zip_with. Qed.

(** The rows a mask keeps are as many as its [true]s, at most. *)
Lemma mask_filter_length_count {A} keep (l : list A) :
  length (mask_filter keep l) <= count_true keep.
Proof.
  revert l. induction keep as [|b ks IH]; intros [|x xs]; simpl; try lia.
  - destruct b; simpl; lia.
  - specialize (IH xs). destruct b; simpl; lia.
Qed.

Lemma mask_filter_length_eq {A} keep (l : list A) :
  length keep = length l -> length (mask_filter keep l) = count_true keep.
Proof.
  revert l. induction keep as [|b ks IH]; intros [|x xs] Hl; simpl in *; try done.
  specialize (IH xs). destruct b; simpl; lia.
Qed.

Lemma col_len_filter_count keep c :
  col_len (col_filter keep c) <= count_true keep.
Proof. destruct c; simpl; apply mask_filter_length_count. Qed.

End MaskFacts.

Section DuplicatedFacts.

Lemma duplicated_from_length seen ks : length (duplicated_from seen ks) = length ks.
Proof.
  revert seen. induction ks as [|k r IH]; intros seen; simpl; [done|].
  case_bool_decide; simpl; by rewrite IH.
Qed.

(** After the duplicates are dropped nothing is a duplicate. *)
Lemma duplicated_from_kept seen ks :
  duplicated_from seen (mask_filter (negb <$> duplicated_from seen ks) ks) =
  replicate (length (mask_filter (negb <$> duplicated_from seen ks) ks)) false.
Proof.
  revert seen. induction ks as [|k r IH]; intros seen; simpl; [done|].
  case_bool_decide as Hk; simpl.
  - apply IH.
  - rewrite bool_decide_false by done. f_equal. apply IH.
Qed.

Lemma duplicated_length c : length (duplicated c) = col_len c.
Proof.
  unfold duplicated. by rewrite duplicated_from_length, length_fmap, col_values_length.
Qed.

Lemma duplicated_filter c :
  let keep := negb <$> duplicated c in
  duplicated (col_filter keep c) = replicate (col_len (col_filter keep c)) false.
Proof.
  simpl. unfold duplicated. rewrite col_values_filter, <- mask_filter_fmap.
  rewrite (duplicated_from_kept [] (key_of <$> col_values c)).
  f_equal. rewrite <- col_values_length, col_values_filter.
  by rewrite mask_filter_fmap, length_fmap.
Qed.

(** The length of a de-duplicated column is the number of rows kept. *)
Lemma col_len_filter_duplicated c :
  let keep := negb <$> duplicated c in
  col_len (col_filter keep c) = count_true keep.
Proof.
  simpl. rewrite <- col_values_length, col_values_filter.
  apply mask_filter_length_eq.
  by rewrite length_fmap, duplicated_length, col_values_length.
Qed.

End DuplicatedFacts.

Section CleaningSteps.
Context `{B : Builtins}.

Lemma series_apply_float_shape f c : float_or_empty (series_apply_float f c) = true.
Proof.
  unfold series_apply_float. destruct (col_values c) eqn:E; [|done].
  destruct c; simpl in *; [by rewrite E..| done | by rewrite E | by rewrite E].
Qed.

Lemma series_apply_float_parsed c :
  float_or_empty c = true -> series_apply_float _parse_total_charges c = c.
Proof.
  unfold series_apply_float, float_or_empty.
  destruct c as [xs|fs|bs|vs]; simpl; try (intros ->%bool_decide_eq_true; done).
  intros _. destruct fs as [|f fs]; [done|]. simpl. f_equal. f_equal.
  rewrite <- list_fmap_compose. by rewrite list_fmap_id.
Qed.

Lemma float_or_empty_filter keep c :
  float_or_empty c = true -> float_or_empty (col_filter keep c) = true.
Proof.
  destruct c as [xs|fs|bs|vs]; simpl; try done;
    intros E%bool_decide_eq_true; apply bool_decide_eq_true.
  - destruct xs; [|done]. by rewrite mask_filter_nil_r.
  - destruct bs; [|done]. by rewrite mask_filter_nil_r.
  - subst. by rewrite mask_filter_nil_r.
Qed.

Lemma impute_cell_idem t mn : impute_cell (impute_cell t mn) mn = impute_cell t mn.
Proof.
  unfold impute_cell. destruct (PyFloat.is_nan t) eqn:E; [|by rewrite E].
  by case_match.
Qed.

Lemma zip_with_idem {A C} (f : A -> C -> A) l k :
  (forall a c, f (f a c) c = f a c) ->
  zip_with f (zip_with f l k) k = zip_with f l k.
Proof.
  intros Hf. revert k. induction l as [|a l IH]; intros [|c k]; simpl; try done.
  by rewrite Hf, IH.
Qed.

Lemma impute_idem t m n : impute (impute t m n) m n = impute t m n.
Proof.
  destruct t as [|ts| |], m as [|ms| |], n as [ns| | |]; simpl; try done.
  f_equal. apply zip_with_idem, impute_cell_idem.
Qed.

Lemma impute_filter keep t m n :
  impute (col_filter keep t) (col_filter keep m) (col_filter keep n) =
  col_filter keep (impute t m n).
Proof.
  destruct t as [|ts| |], m as [|ms| |], n as [ns| | |]; simpl; try done.
  by rewrite mask_filter_zip_with, mask_filter_zip.
Qed.

Lemma impute_shape t m n :
  float_or_empty t = true -> float_or_empty (impute t m n) = true.
Proof. destruct t as [|ts| |], m as [|ms| |], n as [ns| | |]; simpl; done. Qed.

Lemma standardize_senior_int c c' :
  standardize_senior c = Some c' -> exists zs, c' = ColInt zs.
Proof.
  destruct c; simpl; intros H; simplify_eq; eauto.
  destruct (floats_astype_int xs); simplify_eq/=; eauto.
Qed.

Lemma Forall_mask_filter {A} (P : A -> Prop) keep l :
  Forall P l -> Forall P (mask_filter keep l).
Proof.
  intros H. revert keep. induction H as [|x l Hx _ IH]; intros [|[] keep]; simpl; auto.
Qed.

(** The lambda of lines 82-84 changes nothing on a column whose cells it
    normalised in one pass. *)
Lemma series_apply_str_idem c :
  Forall yes_no_stable (col_values c) ->
  series_apply_str yes_no (series_apply_str yes_no c) = series_apply_str yes_no c.
Proof.
  intros Hst. unfold series_apply_str at 2 3. destruct (col_values c) as [|v vs] eqn:E.
  - unfold series_apply_str. by rewrite E.
  - unfold series_apply_str. cbn [col_values fmap list_fmap].
    inversion Hst as [|? ? Hv Hvs]; subst. f_equal.
    rewrite Hv. f_equal.
    rewrite <- list_fmap_compose. apply Forall_fmap_ext_1.
    eapply Forall_impl; [exact Hvs|]. intros y Hy. simpl. by rewrite Hy.
Qed.

Lemma series_apply_str_len f c : col_len (series_apply_str f c) = col_len c.
Proof.
  unfold series_apply_str. destruct (col_values c) eqn:E; [done|].
  rewrite <- (col_values_length c), E. simpl. by rewrite length_fmap.
Qed.

Lemma series_apply_float_len f c : col_len (series_apply_float f c) = col_len c.
Proof.
  unfold series_apply_float. destruct (col_values c) eqn:E; [done|].
  rewrite <- (col_values_length c), E. simpl. by rewrite length_fmap.
Qed.

(** A cell that is a string or a null. *)
Definition text_or_null (v : value) : bool := is_str v || isna v.

Lemma str_cell_text_or_null f v : text_or_null (str_cell f v) = true.
Proof. by destruct v. Qed.

(** On strings and nulls the accessor is available and the result stays an
    object Series. *)
Lemma str_method_text f vs :
  Forall (fun v => text_or_null v = true) vs ->
  str_method f (ColObj vs) = Some (ColObj (str_cell f <$> vs)).
Proof.
  intros H. unfold str_method.
  assert (Hacc : str_accessor_ok vs = true).
  { unfold str_accessor_ok.
    destruct (filter _ vs) as [|v nn] eqn:E; [done|].
    assert (Hv : v ∈ filter (fun v => notna v = true) vs) by (rewrite E; left).
    apply list_elem_of_filter in Hv as [Hv1 Hv2].
    rewrite Forall_forall in H. specialize (H v Hv2).
    unfold text_or_null, notna in *. destruct v; simpl in *; try done.
    destruct (PyFloat.is_nan f0); done. }
  rewrite Hacc.
  assert (Hobj : existsb is_str vs || forallb isna vs = true).
  { clear Hacc. induction H as [|v vs' Hv _ IH]; [done|]. simpl.
    unfold text_or_null in Hv. destruct (is_str v); [done|]. simpl in *.
    by rewrite Hv. }
  by rewrite Hobj.
Qed.

Lemma str_method_len f c c' : str_method f c = Some c' -> col_len c' = col_len c.
Proof.
  destruct c; simpl; try done. destruct (str_accessor_ok xs); [|done].
  intros [= <-]. case_match; simpl; by rewrite length_fmap.
Qed.

(** Two string methods in a row: the first result is an object Series. *)
Lemma str_method_twice f g c c1 c2 :
  str_method f c = Some c1 -> str_method g c1 = Some c2 ->
  exists vs, c = ColObj vs /\ c1 = ColObj (str_cell f <$> vs) /\
             c2 = ColObj (str_cell g <$> (str_cell f <$> vs)).
Proof.
  destruct c as [| | |vs]; simpl; try done.
  destruct (str_accessor_ok vs); [|done]. intros [= <-].
  destruct (existsb is_str vs || forallb isna vs); [|done].
  rewrite str_method_text.
  - intros [= <-]. by exists vs.
  - apply Forall_fmap, Forall_true. intros v. apply str_cell_text_or_null.
Qed.

(** A second pass of [.str.strip().str.capitalize()] changes nothing on a
    column normalised in one pass. *)
Lemma str_method_gender_idem c c1 c2 :
  Forall gender_stable (col_values c) ->
  str_method str_strip c = Some c1 -> str_method str_capitalize c1 = Some c2 ->
  exists c1', str_method str_strip c2 = Some c1' /\
              str_method str_capitalize c1' = Some c2.
Proof.
  intros Hst H1 H2.
  destruct (str_method_twice _ _ _ _ _ H1 H2) as (vs & -> & -> & ->).
  simpl in Hst. eexists. split.
  - apply str_method_text.
    apply Forall_fmap, Forall_true. intros v. apply str_cell_text_or_null.
  - rewrite str_method_text.
    + f_equal. f_equal. rewrite <- !list_fmap_compose.
      apply Forall_fmap_ext_1. eapply Forall_impl; [exact Hst|].
      intros [|s|z|f|b] Hv; simpl in *; try done. by rewrite Hv.
    + apply Forall_fmap, Forall_true. intros v. apply str_cell_text_or_null.
Qed.

End CleaningSteps.

Section CleaningFrames.
Context `{B : Builtins}.

Lemma frame_filter_all_true n df :
  length (index df) <= n ->
  (forall c col, get_col c df = Some col -> col_len col <= n) ->
  frame_filter (replicate n true) df = df.
Proof.
  destruct df as [idx m]. unfold frame_filter, get_col. simpl. intros Hi Hc. f_equal.
  - by apply mask_filter_replicate_true.
  - apply map_eq. intros c. rewrite lookup_fmap.
    destruct (m !! c) as [col|] eqn:E; simpl; [|done]. f_equal.
    specialize (Hc c col E).
    destruct col; simpl in *; f_equal; by apply mask_filter_replicate_true.
Qed.

Lemma standardize_yes_no_get df n c :
  get_col c (standardize_yes_no df n) =
  if decide (c = n) then series_apply_str yes_no <$> get_col c df else get_col c df.
Proof.
  unfold standardize_yes_no. case_decide as E.
  - subst. destruct (get_col n df) eqn:E; [|by rewrite E]. by rewrite get_set_eq.
  - destruct (get_col n df); [|done]. by rewrite get_set_ne.
Qed.

Lemma standardize_yes_no_index df n : index (standardize_yes_no df n) = index df.
Proof. unfold standardize_yes_no. by destruct (get_col n df). Qed.

Lemma yes_no_fold_index names df : index (foldl standardize_yes_no df names) = index df.
Proof.
  revert df. induction names as [|n ns IH]; intros df; simpl; [done|].
  by rewrite IH, standardize_yes_no_index.
Qed.

Lemma yes_no_fold_get names df c :
  NoDup names ->
  get_col c (foldl standardize_yes_no df names) =
  if decide (c ∈ names) then series_apply_str yes_no <$> get_col c df else get_col c df.
Proof.
  intros Hnd. revert df. induction Hnd as [|n ns Hn Hnd IH]; intros df; simpl.
  - done.
  - rewrite IH, standardize_yes_no_get.
    destruct (decide (c = n)) as [->|Hne].
    + rewrite decide_False by done. rewrite decide_True; [done | left].
    + destruct (decide (c ∈ ns)).
      * rewrite decide_True; [done | by right].
      * rewrite decide_False; [done|]. rewrite not_elem_of_cons. done.
Qed.

Lemma yes_no_columns_NoDup : NoDup yes_no_columns.
Proof. apply (bool_decide_unpack _); vm_compute; exact I. Qed.

(** A frame already cleaned is a fixed point of [clean_data]. *)
Lemma cleaned_fixed df : cleaned df -> clean_data df = Some df.
Proof.
  intros [(T & M & N & HT & HM & HN & HTs & HMs & Himp) [S HS]
          (ids & Hids & Hdup & Hidx & Hlen) Hyn Hg].
  unfold clean_data.
  rewrite HT. cbn [mbind option_bind].
  rewrite series_apply_float_parsed, (set_col_id _ _ _ HT) by done.
  rewrite HM. cbn [mbind option_bind].
  rewrite series_apply_float_parsed, (set_col_id _ _ _ HM) by done.
  rewrite HN. cbn [mbind option_bind tenure_to_int].
  rewrite (set_col_id _ _ _ HN), HT, HM, HN. cbn [mbind option_bind].
  rewrite Himp, (set_col_id _ _ _ HT), HS. cbn [mbind option_bind standardize_senior].
  rewrite (set_col_id _ _ _ HS).
  unfold drop_duplicates. rewrite Hids. cbn [mbind option_bind].
  rewrite Hdup, fmap_replicate. cbn [negb].
  rewrite frame_filter_all_true by done.
  assert (Hfold : foldl standardize_yes_no df yes_no_columns = df).
  { assert (Hgen : forall names, names ⊆ yes_no_columns ->
              foldl standardize_yes_no df names = df).
    { induction names as [|n ns IH]; intros Hsub; simpl; [done|].
      assert (standardize_yes_no df n = df) as ->.
      { unfold standardize_yes_no. destruct (get_col n df) as [col|] eqn:E; [|done].
        rewrite (Hyn n col); [by apply set_col_id | apply Hsub; left | done]. }
      apply IH. intros x Hx. apply Hsub. by right. }
    by apply Hgen. }
  rewrite Hfold. unfold standardize_gender.
  destruct (get_col "gender" df) as [col|] eqn:E; [|done].
  destruct (Hg col eq_refl) as (c1 & -> & H2). cbn [mbind option_bind].
  rewrite H2. cbn [mbind option_bind]. by rewrite set_col_id.
Qed.

End CleaningFrames.

Section CleaningInv.
Context `{B : Builtins}.

Tactic Notation "bind_step" hyp(H) "as" ident(x) :=
  match type of H with
  | mbind _ ?e = Some _ =>
      destruct e as [x|] eqn:?; cbn [mbind option_bind] in H; [|discriminate H]
  end.

Ltac norm_get H :=
  repeat match type of H with
  | context [get_col ?c' (set_col ?c ?col ?df)] =>
      first [ rewrite (get_set_ne c c' col df) in H by discriminate
            | rewrite (get_set_eq c col df) in H ]
  end.

Ltac norm_get_goal :=
  repeat match goal with
  | |- context [get_col ?c' (set_col ?c ?col ?df)] =>
      first [ rewrite (get_set_ne c c' col df) by discriminate
            | rewrite (get_set_eq c col df) ]
  end.

(** The frame [clean_data] holds when it reaches line 74. *)
Lemma clean_data_inv df out :
  clean_data df = Some out ->
  exists T0 M0 N0 N S0 S ids,
    get_col "TotalCharges" df = Some T0 /\
    get_col "MonthlyCharges" df = Some M0 /\
    get_col "tenure" df = Some N0 /\ tenure_to_int N0 = Some N /\
    get_col "SeniorCitizen" df = Some S0 /\ standardize_senior S0 = Some S /\
    get_col "customerID" df = Some ids /\
    standardize_gender
      (foldl standardize_yes_no
         (frame_filter (negb <$> duplicated ids)
            (set_col "SeniorCitizen" S
               (set_col "TotalCharges"
                  (impute (series_apply_float _parse_total_charges T0)
                          (series_apply_float _parse_total_charges M0) (ColInt N))
                  (set_col "tenure" (ColInt N)
                     (set_col "MonthlyCharges" (series_apply_float _parse_total_charges M0)
                        (set_col "TotalCharges"
                           (series_apply_float _parse_total_charges T0) df))))))
         yes_no_columns) = Some out.
Proof.
  unfold clean_data. intros H.
  bind_step H as T0. norm_get H.
  bind_step H as M0. norm_get H.
  bind_step H as N0. bind_step H as N. norm_get H.
  cbn [mbind option_bind] in H. norm_get H.
  bind_step H as S0. bind_step H as S.
  bind_step H as df6.
  match goal with E : drop_duplicates _ = Some _ |- _ =>
    unfold drop_duplicates in E; norm_get E;
    destruct (get_col "customerID" df) as [ids|] eqn:Hids;
    cbn [mbind option_bind] in E; [|discriminate E];
    injection E as <- end.
  by exists T0, M0, N0, N, S0, S, ids.
Qed.

Lemma standardize_gender_inv X out :
  standardize_gender X = Some out ->
  (get_col "gender" X = None /\ out = X) \/
  (exists c0 c1 c2,
     get_col "gender" X = Some c0 /\ str_method str_strip c0 = Some c1 /\
     str_method str_capitalize c1 = Some c2 /\ out = set_col "gender" c2 X).
Proof.
  unfold standardize_gender. destruct (get_col "gender" X) as [c0|]; [|intros [= <-]; by left].
  intros H. bind_step H as c1. bind_step H as c2. injection H as <-.
  right. by exists c0, c1, c2.
Qed.

Lemma standardize_gender_get X out c :
  standardize_gender X = Some out -> c <> "gender" -> get_col c out = get_col c X.
Proof.
  intros [[_ ->]|(c0 & c1 & c2 & _ & _ & _ & ->)]%standardize_gender_inv Hc; [done|].
  by rewrite get_set_ne.
Qed.

Lemma standardize_gender_index X out :
  standardize_gender X = Some out -> index out = index X.
Proof.
  by intros [[_ ->]|(c0 & c1 & c2 & _ & _ & _ & ->)]%standardize_gender_inv.
Qed.

Lemma standardize_gender_len X out c col :
  standardize_gender X = Some out -> get_col c out = Some col ->
  exists col0, get_col c X = Some col0 /\ col_len col = col_len col0.
Proof.
  intros [[_ ->]|(c0 & c1 & c2 & H0 & H1 & H2 & ->)]%standardize_gender_inv Hc; [eauto|].
  destruct (decide (c = "gender")) as [->|Hne].
  - rewrite get_set_eq in Hc. injection Hc as <-. exists c0. split; [done|].
    apply str_method_len in H1, H2. congruence.
  - rewrite get_set_ne in Hc by done. eauto.
Qed.

Lemma yes_no_fold_len names df c col :
  NoDup names -> get_col c (foldl standardize_yes_no df names) = Some col ->
  exists col0, get_col c df = Some col0 /\ col_len col = col_len col0.
Proof.
  intros Hnd. rewrite yes_no_fold_get by done. case_decide; [|eauto].
  destruct (get_col c df) as [col0|]; simpl; [|done]. intros [= <-].
  exists col0. split; [done|]. apply series_apply_str_len.
Qed.

Lemma yes_no_columns_apart :
  Forall (fun c => c <> "gender" /\ c <> "TotalCharges" /\ c <> "MonthlyCharges" /\
                   c <> "tenure" /\ c <> "SeniorCitizen" /\ c <> "customerID")
         yes_no_columns.
Proof. apply (bool_decide_unpack _); vm_compute; exact I. Qed.

Lemma key_columns_apart :
  Forall (fun c => c <> "gender" /\ c ∉ yes_no_columns)
         ["TotalCharges"; "MonthlyCharges"; "tenure"; "SeniorCitizen"; "customerID"].
Proof. apply (bool_decide_unpack _); vm_compute; exact I. Qed.

(** The columns of a cleaned frame, in terms of the input columns. *)
Lemma clean_data_columns df out :
  clean_data df = Some out ->
  exists T0 M0 N0 N S0 S ids,
    get_col "TotalCharges" df = Some T0 /\
    get_col "MonthlyCharges" df = Some M0 /\
    get_col "tenure" df = Some N0 /\ tenure_to_int N0 = Some N /\
    get_col "SeniorCitizen" df = Some S0 /\ standardize_senior S0 = Some S /\
    get_col "customerID" df = Some ids /\
    index out = mask_filter (kept df) (index df) /\
    get_col "TotalCharges" out =
      Some (col_filter (kept df)
              (impute (series_apply_float _parse_total_charges T0)
                      (series_apply_float _parse_total_charges M0) (ColInt N))) /\
    get_col "MonthlyCharges" out =
      Some (col_filter (kept df) (series_apply_float _parse_total_charges M0)) /\
    get_col "tenure" out = Some (ColInt (mask_filter (kept df) N)) /\
    get_col "SeniorCitizen" out = Some (col_filter (kept df) S) /\
    get_col "customerID" out = Some (col_filter (kept df) ids) /\
    (forall c, c ∈ yes_no_columns ->
       get_col c out = series_apply_str yes_no <$> (col_filter (kept df) <$> get_col c df)) /\
    (forall col, get_col "gender" out = Some col ->
       exists g0 c1, get_col "gender" df = Some g0 /\
                     str_method str_strip (col_filter (kept df) g0) = Some c1 /\
                     str_method str_capitalize c1 = Some col) /\
    (forall c, c ∉ cleaned_columns ->
       get_col c out = col_filter (kept df) <$> get_col c df) /\
    (forall c col, get_col c out = Some col -> col_len col <= count_true (kept df)).
Proof.
  intros (T0 & M0 & N0 & N & S0 & S & ids & HT & HM & HN & HN' & HS & HS' & Hids & H)
    %clean_data_inv.
  exists T0, M0, N0, N, S0, S, ids. repeat (split; [done|]).
  unfold kept. rewrite Hids.
  set (keep := negb <$> duplicated ids) in *.
  assert (Hplain : forall c, c <> "gender" -> c ∉ yes_no_columns ->
            get_col c out = col_filter keep <$>
              get_col c (set_col "SeniorCitizen" S
               (set_col "TotalCharges"
                  (impute (series_apply_float _parse_total_charges T0)
                          (series_apply_float _parse_total_charges M0) (ColInt N))
                  (set_col "tenure" (ColInt N)
                     (set_col "MonthlyCharges" (series_apply_float _parse_total_charges M0)
                        (set_col "TotalCharges"
                           (series_apply_float _parse_total_charges T0) df)))))).
  { intros c Hc1 Hc2. rewrite (standardize_gender_get _ _ _ H Hc1).
    rewrite yes_no_fold_get by apply yes_no_columns_NoDup.
    rewrite decide_False by done. apply get_filter. }
  assert (Hnotin : forall c, c ∈ ["TotalCharges"; "MonthlyCharges"; "tenure";
                                   "SeniorCitizen"; "customerID"] ->
                     c <> "gender" /\ c ∉ yes_no_columns).
  { apply Forall_forall, key_columns_apart. }
  split.
  { by rewrite (standardize_gender_index _ _ H), yes_no_fold_index. }
  split.
  { destruct (Hnotin "TotalCharges") as [? ?]; [apply (bool_decide_unpack _); vm_compute; exact I|].
    rewrite Hplain by done. by norm_get_goal. }
  split.
  { destruct (Hnotin "MonthlyCharges") as [? ?]; [apply (bool_decide_unpack _); vm_compute; exact I|].
    rewrite Hplain by done. by norm_get_goal. }
  split.
  { destruct (Hnotin "tenure") as [? ?]; [apply (bool_decide_unpack _); vm_compute; exact I|].
    rewrite Hplain by done. by norm_get_goal. }
  split.
  { destruct (Hnotin "SeniorCitizen") as [? ?]; [apply (bool_decide_unpack _); vm_compute; exact I|].
    rewrite Hplain by done. by norm_get_goal. }
  split.
  { destruct (Hnotin "customerID") as [? ?]; [apply (bool_decide_unpack _); vm_compute; exact I|].
    rewrite Hplain by done. norm_get_goal. by rewrite Hids. }
  split.
  { intros c Hc.
    destruct (proj1 (Forall_forall _ _) yes_no_columns_apart c Hc)
      as (Hg & ? & ? & ? & ? & ?).
    rewrite (standardize_gender_get _ _ _ H Hg).
    rewrite yes_no_fold_get by apply yes_no_columns_NoDup.
    rewrite decide_True by done. rewrite get_filter. f_equal. f_equal.
    by rewrite !get_set_ne. }
  split.
  { intros col Hcol.
    apply standardize_gender_inv in H as [[Hnone ->]|(c0 & c1 & c2 & H0 & H1 & H2 & ->)].
    - congruence.
    - rewrite get_set_eq in Hcol. injection Hcol as <-.
      rewrite yes_no_fold_get in H0 by apply yes_no_columns_NoDup.
      rewrite decide_False in H0 by (apply (bool_decide_unpack _); vm_compute; exact I).
      rewrite get_filter, !get_set_ne in H0 by done.
      apply fmap_Some in H0 as (g0 & Hg0 & ->). eauto. }
  split.
  { intros c Hc. unfold cleaned_columns in Hc.
    rewrite not_elem_of_app in Hc. destruct Hc as [Hc1 Hc2].
    rewrite ?not_elem_of_cons in Hc1. destruct Hc1 as (? & ? & ? & ? & ? & _).
    rewrite Hplain by done. by rewrite !get_set_ne. }
  intros c col Hc.
  destruct (standardize_gender_len _ _ _ _ H Hc) as (col0 & Hc0 & ->).
  destruct (yes_no_fold_len _ _ _ _ yes_no_columns_NoDup Hc0) as (col1 & Hc1 & ->).
  rewrite get_filter in Hc1. apply fmap_Some in Hc1 as (col2 & _ & ->).
  apply col_len_filter_count.
Qed.


(** What [clean_data] returns is cleaned, when the text cells of the input
    are normalised in one pass. *)
Lemma clean_data_cleaned df out :
  clean_data df = Some out -> text_stable df -> cleaned out.
Proof.
  intros (T0 & M0 & N0 & N & S0 & S & ids & HT & HM & HN & HN' & HS & HS' & Hids &
          Hidx & HTo & HMo & HNo & HSo & Hido & Hyn & Hg & _ & Hlen)%clean_data_columns
         [Hst1 Hst2].
  assert (Hkeep : kept df = negb <$> duplicated ids) by (unfold kept; by rewrite Hids).
  split.
  - eexists _, _, _. repeat (split; [done|]). split; [|split].
    + apply float_or_empty_filter, impute_shape, series_apply_float_shape.
    + apply float_or_empty_filter, series_apply_float_shape.
    + change (ColInt (mask_filter (kept df) N)) with (col_filter (kept df) (ColInt N)).
      by rewrite impute_filter, impute_idem.
  - destruct (standardize_senior_int _ _ HS') as [zs ->]. by eexists.
  - eexists. split; [done|]. rewrite Hkeep. split; [apply duplicated_filter|].
    rewrite col_len_filter_duplicated, <- Hkeep. split; [|done].
    rewrite Hidx. apply mask_filter_length_count.
  - intros c col Hc. rewrite (Hyn c Hc).
    intros (col' & (col0 & Hc0 & ->)%fmap_Some & ->)%fmap_Some.
    apply series_apply_str_idem. rewrite col_values_filter.
    apply Forall_mask_filter.
    rewrite Forall_forall in Hst1. specialize (Hst1 c Hc).
    unfold cells_of in Hst1. by rewrite Hc0 in Hst1.
  - intros col (g0 & c1 & Hg0 & H1 & H2)%Hg.
    eapply str_method_gender_idem; [|exact H1|exact H2].
    rewrite col_values_filter. apply Forall_mask_filter.
    unfold cells_of in Hst2. by rewrite Hg0 in Hst2.
Qed.

End CleaningInv.


Section FirstOccurrence.

(** Which cells [duplicated] marks: the ones whose key is in the table or
    occurs at an earlier position. *)
Lemma duplicated_from_spec seen ks p b :
  duplicated_from seen ks !! p = Some b ->
  b = true <->
  exists k, ks !! p = Some k /\ (k ∈ seen \/ exists p', p' < p /\ ks !! p' = Some k).
Proof.
  revert seen p. induction ks as [|k r IH]; intros seen p; simpl; [done|].
  destruct p as [|p].
  - case_bool_decide as Hk; simpl; intros [= <-]; split; try done.
    + intros _. exists k. split; [done | by left].
    + intros (k' & [= <-] & [?|(p' & ? & _)]); [done | lia].
  - assert (Hgen : forall seen', (forall x, x ∈ seen' <-> x = k \/ x ∈ seen) ->
               duplicated_from seen' r !! p = Some b ->
               b = true <->
               exists k0, r !! p = Some k0 /\
                 (k0 ∈ seen \/ exists p', p' < S p /\ (k :: r) !! p' = Some k0)).
    { intros seen' Hseen Hb. rewrite (IH seen' p Hb). split.
      - intros (k0 & Hk0 & [Hin|(p' & Hlt & Hp')]); exists k0; (split; [done|]).
        + apply Hseen in Hin as [->|Hin]; [right; exists 0; split; [lia | done] | by left].
        + right. exists (S p'). split; [lia | done].
      - intros (k0 & Hk0 & [Hin|(p' & Hlt & Hp')]); exists k0; (split; [done|]).
        + left. apply Hseen. by right.
        + destruct p' as [|p']; simpl in Hp'.
          * injection Hp' as ->. left. apply Hseen. by left.
          * right. exists p'. split; [lia | done]. }
    case_bool_decide as Hk; simpl; apply Hgen.
    + intros x. split; [by right | intros [->|?]; done].
    + intros x. by rewrite elem_of_cons.
Qed.

(** The kept keys are pairwise distinct and new with respect to the table. *)
Lemma kept_keys_NoDup seen ks :
  NoDup (mask_filter (negb <$> duplicated_from seen ks) ks) /\
  forall k, k ∈ mask_filter (negb <$> duplicated_from seen ks) ks -> k ∉ seen.
Proof.
  revert seen. induction ks as [|k r IH]; intros seen; simpl.
  - split; [constructor | intros k []%elem_of_nil].
  - case_bool_decide as Hk; simpl; [apply IH|].
    destruct (IH (k :: seen)) as [Hnd Hnew]. split.
    + constructor; [|done]. intros Hin%Hnew. apply Hin. by left.
    + intros x [->|Hin%Hnew]%elem_of_cons; [done|].
      intros ?. apply Hin. by right.
Qed.

(** Every key survives: it is in the table or among the kept keys. *)
Lemma kept_keys_complete seen ks k :
  k ∈ ks -> k ∈ seen \/ k ∈ mask_filter (negb <$> duplicated_from seen ks) ks.
Proof.
  revert seen. induction ks as [|k0 r IH]; intros seen; simpl; [by intros []%elem_of_nil|].
  intros [->|Hin]%elem_of_cons.
  - case_bool_decide; simpl; [by left | right; by left].
  - case_bool_decide as Hk; simpl.
    + by apply IH.
    + destruct (IH (k0 :: seen) Hin) as [[->|?]%elem_of_cons|?];
        [right; by left | by left | right; by right].
Qed.

End FirstOccurrence.

Section TenureFacts.
Context `{B : Builtins}.

Lemma mapM_lookup {A C} (f : A -> option C) l k p x :
  mapM f l = Some k -> l !! p = Some x -> exists y, k !! p = Some y /\ f x = Some y.
Proof.
  intros H%mapM_Some_1 Hx.
  destruct (Forall2_lookup_l _ _ _ _ _ H Hx) as (y & Hy & Hf). eauto.
Qed.

Lemma to_int64_casts f z : PyFloat.to_int64 f = Some z -> PyFloat.casts_to f z.
Proof.
  destruct f as [s|s| |s m e]; simpl; try done.
  - by intros [= <-].
  - intros [= <-]. unfold PyFloat.in_int64, PyFloat.int64_min, PyFloat.int64_max.
    assert (Z.shiftl (Z.pos m) e =
            if (0 <=? e)%Z then (Z.pos m * 2 ^ e)%Z else (Z.pos m / 2 ^ (- e))%Z) as ->.
    { destruct (Z.leb_spec 0 e).
      - by apply Z.shiftl_mul_pow2.
      - apply Z.shiftl_div_pow2. lia. }
    by destruct s.
Qed.

Lemma floats_astype_int_spec fs N :
  floats_astype_int fs = Some N ->
  length N = length fs /\
  forall i f, fs !! i = Some f -> exists z, N !! i = Some z /\ PyFloat.casts_to f z.
Proof.
  intros H. split; [by apply length_mapM in H|].
  intros i f Hf. destruct (mapM_lookup _ _ _ i f H Hf) as (z & Hz & Hc).
  exists z. split; [done|]. by apply to_int64_casts.
Qed.

(** A missing or unparseable cell is read as NaN, which [fillna(0)] fills. *)
Lemma cell_missing v :
  isna v = true \/ (exists s, v = VStr s /\ to_numeric_str s = None) ->
  p_int (cell_to_numeric v) = None /\
  fillna0 (p_float (cell_to_numeric v)) = S754_zero false.
Proof.
  intros [Hna|(s & -> & Hs)].
  - destruct v as [|s|z|f|b]; simpl in *; try done. by destruct f.
  - simpl. by rewrite Hs.
Qed.

Lemma existsb_false {A} (f : A -> bool) l :
  Forall (fun x => f x = false) l -> existsb f l = false.
Proof. induction 1 as [|x l Hx _ IH]; simpl; [done|]. by rewrite Hx, IH. Qed.

Lemma ints_fit_int64 zs :
  Forall (fun z => - 2 ^ 63 <= z <= 2 ^ 63 - 1)%Z zs ->
  ints_need_float zs = false /\ PyFloat.uint64_to_int64 <$> zs = zs.
Proof.
  intros H. split.
  - unfold ints_need_float.
    rewrite (existsb_false (fun z => _ || _)), (existsb_false (fun z => (PyFloat.int64_max <? z)%Z)).
    + by rewrite andb_false_r.
    + eapply Forall_impl; [exact H|]. intros z Hz. simpl in Hz.
      unfold PyFloat.int64_max. lia.
    + eapply Forall_impl; [exact H|]. intros z Hz. simpl in Hz.
      unfold PyFloat.int64_min, PyFloat.uint64_max. lia.
  - rewrite <- (list_fmap_id zs) at 2. apply Forall_fmap_ext_1.
    eapply Forall_impl; [exact H|]. intros z Hz. simpl in *.
    unfold PyFloat.uint64_to_int64, PyFloat.int64_max.
    destruct (Z.leb_spec z (2 ^ 63 - 1)); [done | lia].
Qed.

Lemma ints_fit_uint64 zs :
  Forall (fun z => 0 <= z <= 2 ^ 64 - 1)%Z zs -> ints_need_float zs = false.
Proof.
  intros H. unfold ints_need_float.
  rewrite (existsb_false (fun z => _ || _)), (existsb_false (fun z => (z <? 0)%Z)).
  - done.
  - eapply Forall_impl; [exact H|]. intros z Hz. simpl in Hz. lia.
  - eapply Forall_impl; [exact H|]. intros z Hz. simpl in Hz.
    unfold PyFloat.int64_min, PyFloat.uint64_max. lia.
Qed.

(** What line 56 computes, cell by cell. *)
Lemma tenure_to_int_spec N0 N :
  tenure_to_int N0 = Some N ->
  length N = col_len N0 /\
  (forall i v, col_values N0 !! i = Some v ->
     isna v = true \/ (exists s, v = VStr s /\ to_numeric_str s = None) ->
     N !! i = Some 0%Z) /\
  (forall zs, mapM p_int (cell_to_numeric <$> col_values N0) = Some zs ->
     Forall (fun z => - 2 ^ 63 <= z <= 2 ^ 63 - 1)%Z zs -> N = zs) /\
  (forall vs zs, N0 = ColObj vs -> mapM p_int (cell_to_numeric <$> vs) = Some zs ->
     Forall (fun z => 0 <= z <= 2 ^ 64 - 1)%Z zs ->
     N = (fun z => if (z <=? 2 ^ 63 - 1)%Z then z else (z - 2 ^ 64)%Z) <$> zs) /\
  (forall fs i f, N0 = ColFloat fs -> fs !! i = Some f ->
     exists z, N !! i = Some z /\ PyFloat.casts_to (fillna0 f) z) /\
  (forall vs i v, N0 = ColObj vs ->
     (forall zs, mapM p_int (cell_to_numeric <$> vs) = Some zs ->
        ints_need_float zs = true) ->
     vs !! i = Some v ->
     exists z, N !! i = Some z /\
               PyFloat.casts_to (fillna0 (p_float (cell_to_numeric v))) z).
Proof.
  assert (Hpath : forall (vs : list value) (N : list Z),
            floats_astype_int ((fun p => fillna0 (p_float p)) <$> (cell_to_numeric <$> vs))
              = Some N ->
            length N = length vs /\
            forall i v, vs !! i = Some v ->
              exists z, N !! i = Some z /\
                        PyFloat.casts_to (fillna0 (p_float (cell_to_numeric v))) z).
  { intros vs N' [Hlen Hc]%floats_astype_int_spec. rewrite !length_fmap in Hlen.
    split; [done|]. intros i v Hv. apply Hc.
    by rewrite !list_lookup_fmap, Hv. }
  assert (Hzero : forall (vs : list value) (N : list Z) i v,
            floats_astype_int ((fun p => fillna0 (p_float p)) <$> (cell_to_numeric <$> vs))
              = Some N ->
            vs !! i = Some v ->
            isna v = true \/ (exists s, v = VStr s /\ to_numeric_str s = None) ->
            N !! i = Some 0%Z).
  { intros vs N' i v [_ Hc]%Hpath Hv [_ Hm]%cell_missing.
    destruct (Hc i v Hv) as (z & Hz & Hcast). rewrite Hm in Hcast.
    simpl in Hcast. by subst. }
  destruct N0 as [xs|fs|bs|vs]; cbn [tenure_to_int col_values col_len].
  - intros [= <-]. split; [done|]. split; [|split; [|split; [|split]]]; try done.
    + intros i v (z & -> & _)%list_lookup_fmap_Some [?|(s & ? & _)]; done.
    + intros zs. rewrite <- list_fmap_compose.
      rewrite (mapM_fmap_Some p_int (cell_to_numeric ∘ VInt)) by done. congruence.
  - intros H.
    assert (H' : floats_astype_int
                   ((fun p => fillna0 (p_float p)) <$> (cell_to_numeric <$> (VFloat <$> fs)))
                 = Some N) by (by rewrite <- !list_fmap_compose).
    destruct (Hpath _ _ H') as [Hlen Hc]. rewrite length_fmap in Hlen.
    split; [done|]. split; [|split; [|split; [|split]]]; try done.
    + intros i v Hv Hmiss. by apply (Hzero _ _ i v H').
    + intros zs Hzs _. destruct fs as [|f fs]; [|done].
      simpl in *. injection H as <-. by injection Hzs as <-.
    + intros fs' i f [= <-] Hf. apply (Hc i (VFloat f)). by rewrite list_lookup_fmap, Hf.
  - intros [= <-]. split; [by rewrite length_fmap|].
    split; [|split; [|split; [|split]]]; try done.
    + intros i v (z & -> & _)%list_lookup_fmap_Some [?|(s & ? & _)]; done.
    + intros zs. rewrite <- list_fmap_compose.
      replace (cell_to_numeric ∘ VBool <$> bs)
        with ((fun z => Parsed (PyFloat.of_Z z) (Some z)) <$> (Z.b2z <$> bs))
        by (by rewrite <- list_fmap_compose).
      rewrite (mapM_fmap_Some p_int (fun z => Parsed (PyFloat.of_Z z) (Some z))) by done.
      congruence.
  - destruct (mapM p_int (cell_to_numeric <$> vs)) as [zs0|] eqn:Hint.
    + destruct (ints_need_float zs0) eqn:Hneed.
      * intros H. destruct (Hpath _ _ H) as [Hlen Hc].
        split; [done|]. split; [|split; [|split; [|split]]]; try done.
        -- intros i v Hv Hmiss. by apply (Hzero _ _ i v H).
        -- intros zs [= <-] [E _]%ints_fit_int64. congruence.
        -- intros vs' zs [= <-] Hzs E%ints_fit_uint64. congruence.
        -- intros vs' i v [= <-] _ Hv. by apply Hc.
      * intros [= <-]. split; [|split; [|split; [|split; [|split]]]]; try done.
        -- rewrite length_fmap. apply length_mapM in Hint. by rewrite length_fmap in Hint.
        -- intros i v Hv [Hnone _]%cell_missing.
           destruct (mapM_lookup _ _ _ i (cell_to_numeric v) Hint) as (y & _ & Hf).
           { by rewrite list_lookup_fmap, Hv. }
           congruence.
        -- intros zs [= <-] [_ E]%ints_fit_int64. done.
        -- intros vs' zs [= <-] Hzs _. rewrite Hint in Hzs. by injection Hzs as <-.
        -- intros vs' i v [= <-] Hall. specialize (Hall _ Hint). congruence.
    + intros H. destruct (Hpath _ _ H) as [Hlen Hc].
      split; [done|]. split; [|split; [|split; [|split]]]; try done.
      * intros i v Hv Hmiss. by apply (Hzero _ _ i v H).
      * intros vs' zs [= <-] Hzs. congruence.
      * intros vs' i v [= <-] _ Hv. by apply Hc.
Qed.

End TenureFacts.

Section ImputeFacts.
Context `{B : Builtins}.

Lemma series_apply_float_nonempty f c :
  col_len c <> 0 -> series_apply_float f c = ColFloat (f <$> col_values c).
Proof.
  intros Hlen. unfold series_apply_float.
  destruct (col_values c) eqn:E; [|done].
  by rewrite <- col_values_length, E in Hlen.
Qed.

Lemma wf_frame_col df c col : wf_frame df -> get_col c df = Some col -> col_len col = nrows df.
Proof. intros Hwf Hc. by apply (Hwf c col). Qed.

Lemma kept_length df ids :
  get_col "customerID" df = Some ids -> length (kept df) = col_len ids.
Proof. intros H. unfold kept. by rewrite H, length_fmap, duplicated_length. Qed.

End ImputeFacts.


(** * The claims about the cleaning engine *)

(** C1, as stated, fails: [str.capitalize] of line 89 follows the Unicode
    case tables, and they are not idempotent. A customer whose gender is the
    letter U+0149 is cleaned to U+02BC followed by ["N"] (the title case of
    U+0149), and cleaning that output gives U+02BC followed by ["n"], a
    different record set. *)
Lemma clean_data_not_idempotent :
  clean_data (Samples.odd_gender Samples.u0149) =
    Some (Samples.odd_gender Samples.u02BC_N) /\
  clean_data (Samples.odd_gender Samples.u02BC_N) =
    Some (Samples.odd_gender Samples.u02BC_n) /\
  Samples.odd_gender Samples.u02BC_N <> Samples.odd_gender Samples.u02BC_n.
Proof.
  split; [by vm_compute|]. split; [by vm_compute|].
  intros H. apply (f_equal (get_col "gender")) in H. vm_compute in H. discriminate H.
Qed.

(** C1, amended. Cleaning is idempotent on every record set whose text
    cells are normalised in one pass: when [clean_data] returns a frame, and
    every cell of the Yes/No columns and of the gender column of the input
    is sent by its normalisation (the lambda of lines 82-84, strip then
    capitalize of line 89) to a string which that normalisation leaves
    alone, then running [clean_data] on the output returns it again, with
    the same row labels in the same order and the same columns, cell for
    cell. *)
Theorem clean_data_idempotent_stable_text `{B : Builtins} (df out : frame) :
  clean_data df = Some out -> text_stable df -> clean_data out = Some out.
Proof. intros H Hst. by apply cleaned_fixed, (clean_data_cleaned df). Qed.

Lemma clean_data_raw : clean_data Samples.raw = Some Samples.raw_cleaned.
Proof. by vm_compute. Qed.

Lemma clean_data_idempotent_stable_text_witness :
  clean_data Samples.raw = Some Samples.raw_cleaned /\
  text_stable Samples.raw /\
  clean_data Samples.raw_cleaned = Some Samples.raw_cleaned.
Proof.
  assert (Hst : text_stable Samples.raw)
    by (apply (bool_decide_unpack _); vm_compute; exact I).
  split; [apply clean_data_raw|]. split; [exact Hst|].
  apply (clean_data_idempotent_stable_text Samples.raw); [apply clean_data_raw | exact Hst].
Defined.

(** C2, as stated, fails: a negative tenure is kept. The frame
    [Samples.negative_tenure] has one row with [tenure = -3]; [clean_data]
    returns it unchanged. *)
Lemma clean_data_negative_tenure :
  clean_data Samples.negative_tenure = Some Samples.negative_tenure /\
  get_col "tenure" Samples.negative_tenure = Some (ColInt [-3]%Z) /\
  ~ tenure_non_negative Samples.negative_tenure.
Proof.
  split; [by vm_compute|]. split; [by vm_compute|].
  intros H. specialize (H [-3]%Z eq_refl). by inversion H.
Qed.

(** C2, amended. When [clean_data] returns, the tenure column of the output
    is int64: it holds, for the rows kept, the integers [N] that line 56
    computes, one per input row.
    - A cell that is null, or a string that cannot be parsed, gives 0.
    - When every cell is an integer and all of them are int64 numbers, [N]
      is those integers unchanged, whatever their sign.
    - When every cell of an object column is an integer between 0 and
      [2^64 - 1], an integer above [2^63 - 1] is wrapped: it loses [2^64].
    - Every cell of a float64 column, and every cell of an object column
      whose cells are not all integers (or are integers that fit no 64-bit
      dtype together), is the value read in the cell, with 0 for NaN, cut
      toward zero: [-0.5] gives 0 and [2.7] gives 2; a value outside int64
      gives [-2^63]. *)
Theorem clean_data_tenure_integer `{B : Builtins} (df out : frame) :
  clean_data df = Some out ->
  exists N0 N,
    get_col "tenure" df = Some N0 /\
    get_col "tenure" out = Some (ColInt (mask_filter (kept df) N)) /\
    length N = col_len N0 /\
    (forall i v, col_values N0 !! i = Some v ->
       isna v = true \/ (exists s, v = VStr s /\ to_numeric_str s = None) ->
       N !! i = Some 0%Z) /\
    (forall zs, mapM p_int (cell_to_numeric <$> col_values N0) = Some zs ->
       Forall (fun z => - 2 ^ 63 <= z <= 2 ^ 63 - 1)%Z zs -> N = zs) /\
    (forall vs zs, N0 = ColObj vs -> mapM p_int (cell_to_numeric <$> vs) = Some zs ->
       Forall (fun z => 0 <= z <= 2 ^ 64 - 1)%Z zs ->
       N = (fun z => if (z <=? 2 ^ 63 - 1)%Z then z else (z - 2 ^ 64)%Z) <$> zs) /\
    (forall fs i f, N0 = ColFloat fs -> fs !! i = Some f ->
       exists z, N !! i = Some z /\ PyFloat.casts_to (fillna0 f) z) /\
    (forall vs i v, N0 = ColObj vs ->
       (forall zs, mapM p_int (cell_to_numeric <$> vs) = Some zs ->
          ints_need_float zs = true) ->
       vs !! i = Some v ->
       exists z, N !! i = Some z /\
                 PyFloat.casts_to (fillna0 (p_float (cell_to_numeric v))) z).
Proof.
  intros (T0 & M0 & N0 & N & S0 & S & ids & HT & HM & HN & HN' & HS & HS' & Hids &
          Hidx & HTo & HMo & HNo & _)%clean_data_columns.
  exists N0, N. repeat (split; [done|]). by apply tenure_to_int_spec.
Qed.

Lemma clean_data_dirty_tenure :
  clean_data Samples.dirty_tenure = Some Samples.dirty_tenure_cleaned.
Proof. by vm_compute. Qed.

(** An object column holding ["5"], ["abc"], [None], [2.7] and [-3] is
    cleaned to 5, 0, 0, 2 and -3. *)
Lemma clean_data_tenure_integer_witness :
  clean_data Samples.dirty_tenure = Some Samples.dirty_tenure_cleaned /\
  exists N,
    get_col "tenure" Samples.dirty_tenure_cleaned =
      Some (ColInt (mask_filter (kept Samples.dirty_tenure) N)) /\
    N !! 0 = Some 5%Z /\ N !! 1 = Some 0%Z /\ N !! 2 = Some 0%Z /\
    N !! 3 = Some 2%Z /\ N !! 4 = Some (-3)%Z.
Proof.
  split; [apply clean_data_dirty_tenure|].
  destruct (clean_data_tenure_integer Samples.dirty_tenure Samples.dirty_tenure_cleaned
              clean_data_dirty_tenure)
    as (N0 & N & H0 & Hout & _ & Hzero & _ & _ & _ & Hcast).
  vm_compute in H0. injection H0 as <-.
  assert (Hmixed : forall zs,
            mapM p_int (cell_to_numeric <$>
              [VStr "5"; VStr "abc"; VNone;
               VFloat (S754_finite false 6079859496950170 (-51)); VInt (-3)]) = Some zs ->
            ints_need_float zs = true)
    by (intros zs Hzs; vm_compute in Hzs; discriminate Hzs).
  exists N. split; [exact Hout|].
  split.
  { destruct (Hcast _ 0 (VStr "5") eq_refl Hmixed eq_refl) as (z & Hz & Hc).
    vm_compute in Hc. by subst. }
  split.
  { apply (Hzero 1 (VStr "abc")); [reflexivity|].
    right. exists "abc". split; [reflexivity | by vm_compute]. }
  split.
  { apply (Hzero 2 VNone); [reflexivity | by left]. }
  split.
  { destruct (Hcast _ 3 (VFloat (S754_finite false 6079859496950170 (-51)))
                eq_refl Hmixed eq_refl) as (z & Hz & Hc).
    vm_compute in Hc. by subst. }
  destruct (Hcast _ 4 (VInt (-3)) eq_refl Hmixed eq_refl) as (z & Hz & Hc).
  vm_compute in Hc. by subst.
Defined.

(** C3. After [clean_data] the [customerID] keys of the output are pairwise
    distinct; every key of the input appears on exactly one output row; and
    the rows kept (the same rows for the index and for every column) are
    exactly the first occurrences of their key in the input order. *)
Theorem clean_data_unique_first `{B : Builtins} (df out : frame) :
  clean_data df = Some out ->
  exists ids oids,
    get_col "customerID" df = Some ids /\
    get_col "customerID" out = Some oids /\
    oids = col_filter (kept df) ids /\
    index out = mask_filter (kept df) (index df) /\
    (forall c, c ∉ cleaned_columns ->
       get_col c out = col_filter (kept df) <$> get_col c df) /\
    NoDup (key_of <$> col_values oids) /\
    (forall k, k ∈ key_of <$> col_values ids ->
       exists! q, (key_of <$> col_values oids) !! q = Some k) /\
    (forall p k, (key_of <$> col_values ids) !! p = Some k ->
       kept df !! p = Some true <->
       forall p', p' < p -> (key_of <$> col_values ids) !! p' <> Some k).
Proof.
  intros (T0 & M0 & N0 & N & S0 & S & ids & HT & HM & HN & HN' & HS & HS' & Hids &
          Hidx & HTo & HMo & HNo & HSo & Hido & Hyn & Hg & Hother & Hlen)%clean_data_columns.
  exists ids, (col_filter (kept df) ids). repeat (split; [done|]).
  assert (Hkeep : kept df = negb <$> duplicated_from [] (key_of <$> col_values ids))
    by (unfold kept; by rewrite Hids).
  set (ks := key_of <$> col_values ids) in *.
  assert (Hout : key_of <$> col_values (col_filter (kept df) ids) =
                 mask_filter (negb <$> duplicated_from [] ks) ks).
  { by rewrite col_values_filter, <- mask_filter_fmap, Hkeep. }
  rewrite Hout. destruct (kept_keys_NoDup [] ks) as [Hnd _].
  split; [done|]. split.
  - intros k Hk. destruct (kept_keys_complete [] ks k Hk) as [[]%elem_of_nil|Hin].
    apply list_elem_of_lookup in Hin as [q Hq]. exists q. split; [done|].
    intros q' Hq'. by eapply NoDup_lookup.
  - intros p k Hp. rewrite Hkeep, list_lookup_fmap.
    destruct (duplicated_from [] ks !! p) as [b|] eqn:Hb.
    + pose proof (duplicated_from_spec [] ks p b Hb) as Hspec. simpl. split.
      * intros [= Hnb] p' Hlt Hp'. destruct b; [done|].
        assert (false = true) as [=]. apply Hspec. exists k. split; [done|].
        right. by exists p'.
      * intros Hfirst. f_equal. destruct b; [|done]. exfalso.
        destruct (proj1 Hspec eq_refl) as (k' & Hk' & [[]%elem_of_nil|(p' & Hlt & Hp')]).
        assert (k' = k) as -> by congruence. by apply (Hfirst p').
    + apply lookup_ge_None in Hb. rewrite duplicated_from_length in Hb.
      apply lookup_lt_Some in Hp. lia.
Qed.

Lemma clean_data_unique_first_witness :
  clean_data Samples.raw = Some Samples.raw_cleaned /\
  exists oids,
    get_col "customerID" Samples.raw_cleaned = Some oids /\
    NoDup (key_of <$> col_values oids).
Proof.
  split; [apply clean_data_raw|].
  destruct (clean_data_unique_first Samples.raw Samples.raw_cleaned clean_data_raw)
    as (ids & oids & _ & Ho & _ & _ & _ & Hnd & _).
  by exists oids.
Defined.

(** C4. On every output row whose raw [TotalCharges] is missing or parses to
    NaN, the cleaned [TotalCharges] is the cleaned [MonthlyCharges] times the
    cleaned tenure (float multiplication, the tenure converted to a float).
    Output row [q] is the [q]-th row the mask [kept df] keeps. *)
Theorem clean_data_imputes_total `{B : Builtins} (df out : frame) :
  clean_data df = Some out -> wf_frame df ->
  exists T0 To Mo No,
    get_col "TotalCharges" df = Some T0 /\
    get_col "TotalCharges" out = Some To /\
    get_col "MonthlyCharges" out = Some Mo /\
    get_col "tenure" out = Some (ColInt No) /\
    forall q v,
      mask_filter (kept df) (col_values T0) !! q = Some v ->
      PyFloat.is_nan (_parse_total_charges v) = true ->
      exists m n,
        col_values Mo !! q = Some (VFloat m) /\ No !! q = Some n /\
        col_values To !! q = Some (VFloat (PyFloat.mul m (PyFloat.of_Z n))).
Proof.
  intros Hclean Hwf.
  destruct (clean_data_columns df out Hclean)
    as (T0 & M0 & N0 & N & S0 & S & ids & HT & HM & HN & HN' & HS & HS' & Hids &
        Hidx & HTo & HMo & HNo & _).
  eexists T0, _, _, _. repeat (split; [done|]).
  intros q v Hq Hnan.
  pose proof (wf_frame_col _ _ _ Hwf HT) as LT.
  pose proof (wf_frame_col _ _ _ Hwf HM) as LM.
  pose proof (wf_frame_col _ _ _ Hwf HN) as LN.
  pose proof (wf_frame_col _ _ _ Hwf Hids) as Lids.
  pose proof (kept_length _ _ Hids) as Lk.
  destruct (tenure_to_int_spec _ _ HN') as [LN' _].
  assert (Hne : nrows df <> 0).
  { intros H0. rewrite <- LT, <- col_values_length in H0.
    apply nil_length_inv in H0. rewrite H0, mask_filter_nil_r in Hq. done. }
  rewrite !series_apply_float_nonempty by congruence.
  set (keep := kept df) in *.
  set (ts := _parse_total_charges <$> col_values T0).
  set (ms := _parse_total_charges <$> col_values M0).
  cbn [impute col_filter col_values].
  rewrite mask_filter_zip_with, mask_filter_zip.
  assert (Hcount : q < count_true keep).
  { apply lookup_lt_Some in Hq. rewrite mask_filter_length_eq in Hq; [done|].
    rewrite col_values_length. congruence. }
  destruct (lookup_lt_is_Some_2 (mask_filter keep ms) q) as [m Hm].
  { rewrite mask_filter_length_eq; [done|]. unfold ms.
    rewrite length_fmap, col_values_length. congruence. }
  destruct (lookup_lt_is_Some_2 (mask_filter keep N) q) as [n Hn].
  { rewrite mask_filter_length_eq; [done|]. congruence. }
  exists m, n. split; [by rewrite list_lookup_fmap, Hm|]. split; [done|].
  rewrite list_lookup_fmap, lookup_zip_with.
  unfold ts. rewrite mask_filter_fmap, list_lookup_fmap, Hq.
  rewrite lookup_zip_with, Hm, Hn. simpl.
  unfold impute_cell. by rewrite Hnan.
Qed.

(** The row of the specification: an empty total, [MonthlyCharges = 70.0]
    and [tenure = 5] clean to [TotalCharges = 350.0]. *)
Lemma clean_data_imputes_total_witness :
  clean_data Samples.raw = Some Samples.raw_cleaned /\
  wf_frame Samples.raw /\
  exists To,
    get_col "TotalCharges" Samples.raw_cleaned = Some To /\
    col_values To !! 0 = Some (VFloat Samples.f350).
Proof.
  assert (Hwf : wf_frame Samples.raw)
    by (apply (bool_decide_unpack _); vm_compute; exact I).
  split; [apply clean_data_raw|]. split; [exact Hwf|].
  destruct (clean_data_imputes_total Samples.raw Samples.raw_cleaned clean_data_raw Hwf)
    as (T0 & To & Mo & No & HT & HTo & HMo & HNo & Himp).
  exists To. split; [done|].
  vm_compute in HT. injection HT as <-.
  destruct (Himp 0 (VStr "") eq_refl eq_refl) as (m & n & Hm & Hn & ->).
  vm_compute in HMo. injection HMo as <-.
  vm_compute in HNo. injection HNo as <-.
  vm_compute in Hm. vm_compute in Hn. injection Hm as <-. injection Hn as <-.
  by vm_compute.
Defined.

(** C5 fails on a mixed column. [Samples.mixed_senior] holds the string
    ["Yes"] and the integer [1] in one object column; the dict of lines 66-67
    has string keys only, so the integer is unmapped and [fillna(0)] turns
    it into 0, although line 64 announces the handling of both encodings. *)
Lemma clean_data_senior_int_in_object_column :
  get_col "SeniorCitizen" Samples.mixed_senior = Some (ColObj [VStr "Yes"; VInt 1]) /\
  clean_data Samples.mixed_senior = Some Samples.mixed_senior_cleaned /\
  get_col "SeniorCitizen" Samples.mixed_senior_cleaned = Some (ColInt [1; 0]%Z).
Proof. repeat split; by vm_compute. Qed.
